(** * Sangeet: the model-export scripts

    A shallow embedding of the five export scripts of the repository
    (colab_openunmix.py, colab_script.py, scripts/convert_openunmix.py,
    scripts/convert_openunmix_spectral.py, scripts/inspect_umx.py).

    The scripts are sequential glue around third-party libraries (torch,
    openunmix, demucs, coremltools, pip, bash).  A script is embedded as a
    finite tree of library calls: every call is answered by the environment
    with a value or with a raised exception, and the script text decides
    what happens next.  Running a tree against an environment yields the
    sequence of calls made with their answers, the lines printed and the
    way the script ended. *)

From Stdlib Require Import String Ascii List ZArith QArith Bool Lia DecimalString.
Import ListNotations.
Open Scope string_scope.
Open Scope Z_scope.
Set Warnings "-register-all".

(** ** Python values *)

(** Values are dynamically typed.  Library objects are opaque apart from a
    class name, an identity and an attribute table; the contents of a
    tensor are left out, only its shape is kept. *)
Inductive value : Type :=
| VNone
| VBool (b : bool)
| VInt (z : Z)
| VStr (s : string)
| VList (items : list value)
| VDict (entries : list (string * value))
| VSize (dims : list Z)
| VTensor (dims : list Z)
| VObj (cls : string) (id : N) (attrs : list (string * value)).

(** Exceptions.  [SystemExit] derives from BaseException only; the other two
    constructors are instances of Exception. *)
Inductive exn : Type :=
| SystemExit (code : Z)
| CalledProcessError (returncode : value)
| Exception (cls : string) (msg : string).

Definition is_Exception (e : exn) : bool :=
  match e with
  | SystemExit _ => false
  | CalledProcessError _ => true
  | Exception _ _ => true
  end.

Inductive result (A : Type) : Type :=
| Ok (a : A)
| Raise (e : exn).
Arguments Ok {A} a.
Arguments Raise {A} e.

Definition nl : string := String (Ascii.ascii_of_nat 10) EmptyString.

Fixpoint lookup {A : Type} (k : string) (l : list (string * A)) : option A :=
  match l with
  | [] => None
  | (k', v) :: rest => if String.eqb k k' then Some v else lookup k rest
  end.

(** [obj.name] *)
Definition getattr (obj : value) (name : string) : result value :=
  match obj with
  | VObj _ _ attrs =>
      match lookup name attrs with
      | Some v => Ok v
      | None => Raise (Exception "AttributeError" name)
      end
  | VTensor dims =>
      if String.eqb name "shape" then Ok (VSize dims)
      else Raise (Exception "AttributeError" name)
  | _ => Raise (Exception "AttributeError" name)
  end.

(** [hasattr(obj, name)]: true unless the attribute lookup raises. *)
Definition hasattr (obj : value) (name : string) : bool :=
  match getattr obj name with
  | Ok _ => true
  | Raise _ => false
  end.

(** [obj[key]] for lists (integer index, negative counts from the end) and
    string-keyed mappings. *)
Definition getitem (obj key : value) : result value :=
  match obj, key with
  | VList items, VInt i =>
      let n := Z.of_nat (List.length items) in
      if (0 <=? i) && (i <? n) then
        match nth_error items (Z.to_nat i) with
        | Some v => Ok v
        | None => Raise (Exception "IndexError" "index out of range")
        end
      else if (- n <=? i) && (i <? 0) then
        match nth_error items (Z.to_nat (n + i)) with
        | Some v => Ok v
        | None => Raise (Exception "IndexError" "index out of range")
        end
      else Raise (Exception "IndexError" "index out of range")
  | VDict entries, VStr k =>
      match lookup k entries with
      | Some v => Ok v
      | None => Raise (Exception "KeyError" k)
      end
  | _, _ => Raise (Exception "TypeError" "object is not subscriptable")
  end.

(** [obj.keys()] *)
Definition keys (obj : value) : result value :=
  match obj with
  | VDict entries => Ok (VList (map (fun kv => VStr (fst kv)) entries))
  | _ => Raise (Exception "AttributeError" "keys")
  end.

(** [s.startswith(p)] *)
Definition startswith (s : value) (p : string) : result bool :=
  match s with
  | VStr s => Ok (String.prefix p s)
  | _ => Raise (Exception "AttributeError" "startswith")
  end.

(** Truth value of an object, as used by [if retcode:]. *)
Definition truthy (v : value) : bool :=
  match v with
  | VNone => false
  | VBool b => b
  | VInt z => negb (z =? 0)
  | VStr s => negb (String.eqb s EmptyString)
  | VList items => negb (Nat.eqb (List.length items) 0)
  | VDict entries => negb (Nat.eqb (List.length entries) 0)
  | VSize dims => negb (Nat.eqb (List.length dims) 0)
  | VTensor _ => true
  | VObj _ _ _ => true
  end.

(** ** coremltools declarations *)

(** One axis of a declared input: a fixed size or [ct.RangeDim]. *)
Inductive dim : Type :=
| Fixed (n : Z)
| RangeDim (lower_bound upper_bound default : Z).

(** [ct.TensorType(name=..., shape=...)] *)
Record TensorType : Type := { name : string; shape : list dim }.

(** [ct.precision] *)
Inductive precision : Type := FLOAT16 | FLOAT32.

(** [ct.target], the members relevant on the Mac side. *)
Inductive target : Type := macOS10_15 | macOS11 | macOS12 | macOS13 | macOS14.

(** ** Library calls *)

Inductive call : Type :=
| import_ (module : string)
| numpy___version__
| subprocess_call (argv : list string)
| open_ (path mode : string)
| file_write_script (f : value)
| file_close (f : value)
| load_separator (kwargs : list (string * value))
| get_model (name : string)
| apply_model (model x : value) (shifts : Z) (split : bool) (overlap : Q)
    (progress : bool)
| nn_Module___init__ (cls : string)
| nn_Module_eval (m : value)
| nn_Module___call__ (m x : value)
| torch_randn (size : list Z)
| jit_trace (func example_inputs : value) (check_trace : bool)
| ct_convert (model : value) (inputs : list TensorType) (convert_to : string)
    (compute_precision : precision) (minimum_deployment_target : target)
| setattr (obj : value) (name : string) (v : value)
| MLModel_save (mlmodel : value) (path : string)
| shutil_make_archive (base_name format root_dir : string).

(** Pieces of an f-string; formatting of objects is kept symbolic. *)
Inductive fragment : Type :=
| Lit (s : string)
| Str (v : value)
| StrExn (e : exn)
| TypeOf (v : value)
| Dir (v : value).

Inductive output : Type :=
| Stdout (line : list fragment)
| Traceback (e : exn).

(** ** Scripts as trees of calls *)

Inductive prog (A : Type) : Type :=
| Ret (a : A)
| Throw (e : exn)
| Out (o : output) (k : prog A)
| Call (c : call) (k : result value -> prog A)
| Proc (argv : list string) (k : Z -> prog A).
Arguments Ret {A} a.
Arguments Throw {A} e.
Arguments Out {A} o k.
Arguments Call {A} c k.
Arguments Proc {A} argv k.

Fixpoint bind {A B : Type} (p : prog A) (f : A -> prog B) : prog B :=
  match p with
  | Ret a => f a
  | Throw e => Throw e
  | Out o k => Out o (bind k f)
  | Call c k => Call c (fun r => bind (k r) f)
  | Proc argv k => Proc argv (fun rc => bind (k rc) f)
  end.

Declare Scope prog_scope.
Delimit Scope prog_scope with prog.
Notation "x <- p ;; q" := (bind p (fun x => q))
  (at level 61, p at next level, right associativity) : prog_scope.
Notation "p ;; q" := (bind p (fun _ => q))
  (at level 61, right associativity) : prog_scope.
Open Scope prog_scope.

(** A pure operation that may raise. *)
Definition lift {A : Type} (r : result A) : prog A :=
  match r with
  | Ok a => Ret a
  | Raise e => Throw e
  end.

(** A library call whose exception, if any, propagates. *)
Definition call_ (c : call) : prog value := Call c lift.

(** [print(...)] *)
Definition print (line : list fragment) : prog unit := Out (Stdout line) (Ret tt).

(** [sys.exit(code)] *)
Definition sys_exit {A : Type} (code : Z) : prog A := Throw (SystemExit code).

(** [try: body except <class> as e: handler e]: [handler] answers [None]
    for exceptions the except clause does not match. *)
Fixpoint try_except {A : Type} (body : prog A) (handler : exn -> option (prog A))
  : prog A :=
  match body with
  | Ret a => Ret a
  | Throw e =>
      match handler e with
      | Some h => h
      | None => Throw e
      end
  | Out o k => Out o (try_except k handler)
  | Call c k => Call c (fun r => try_except (k r) handler)
  | Proc argv k => Proc argv (fun rc => try_except (k rc) handler)
  end.

(** [except Exception as e] *)
Definition except_Exception {A : Type} (h : exn -> prog A) (e : exn)
  : option (prog A) :=
  if is_Exception e then Some (h e) else None.

(** [except subprocess.CalledProcessError as e] *)
Definition except_CalledProcessError {A : Type} (h : value -> prog A) (e : exn)
  : option (prog A) :=
  match e with
  | CalledProcessError returncode => Some (h returncode)
  | _ => None
  end.

(** [torch.jit.trace(func, example_inputs, check_trace=True)]: the keyword
    is optional and defaults to True. *)
Definition torch_jit_trace (func example_inputs : value)
    (check_trace : option bool) : prog value :=
  call_ (jit_trace func example_inputs
           (match check_trace with Some b => b | None => true end)).

(** [subprocess.check_call(argv)]: run the command, wait for it, raise
    CalledProcessError when the return code is truthy. *)
Definition subprocess_check_call (argv : list string) : prog value :=
  retcode <- call_ (subprocess_call argv) ;;
  if truthy retcode then Throw (CalledProcessError retcode) else Ret (VInt 0).

(** [subprocess.run(argv, check=...)] where the child process is itself a
    modelled program: the child runs to completion on the parent's stdout,
    then, with [check], a non-zero status raises CalledProcessError. *)
Definition subprocess_run (child : prog Z) (check : bool) : prog value :=
  returncode <- child ;;
  if check && negb (returncode =? 0)
  then Throw (CalledProcessError (VInt returncode))
  else Ret (VObj "CompletedProcess" 0 [("returncode", VInt returncode)]).

(** The interpreter around a script: exit status 0 on normal completion,
    the code of an uncaught SystemExit, and a traceback on stderr with
    status 1 for any other uncaught exception. *)
Fixpoint python (p : prog unit) : prog Z :=
  match p with
  | Ret _ => Ret 0
  | Throw (SystemExit code) => Ret code
  | Throw e => Out (Traceback e) (Ret 1)
  | Out o k => Out o (python k)
  | Call c k => Call c (fun r => python (k r))
  | Proc argv k => Proc argv (fun rc => python (k rc))
  end.

(** ** Running a script in an environment *)

Inductive event : Type :=
| EOut (o : output)
| ELib (c : call) (r : result value)
| EProc (argv : list string) (rc : Z).

Section Run.
Context {W : Type}.
(** The environment: how the libraries answer a call and how a shell
    command exits, both depending on and updating the state of the
    outside world. *)
Variable handle : call -> W -> W * result value.
Variable spawn : list string -> W -> W * Z.

Fixpoint run {A : Type} (p : prog A) (w : W) : list event * W * result A :=
  match p with
  | Ret a => ([], w, Ok a)
  | Throw e => ([], w, Raise e)
  | Out o k => let '(t, w', r) := run k w in (EOut o :: t, w', r)
  | Call c k =>
      let (w1, a) := handle c w in
      let '(t, w', r) := run (k a) w1 in
      (ELib c a :: t, w', r)
  | Proc argv k =>
      let (w1, rc) := spawn argv w in
      let '(t, w', r) := run (k rc) w1 in
      (EProc argv rc :: t, w', r)
  end.

Definition trace {A : Type} (p : prog A) (w : W) : list event :=
  fst (fst (run p w)).
Definition outcome {A : Type} (p : prog A) (w : W) : result A :=
  snd (run p w).
End Run.

(** Safety properties that hold of every call a script can make, whatever
    the environment answers. *)
Inductive every_call {A : Type} (P : call -> Prop) : prog A -> Prop :=
| every_Ret a : every_call P (Ret a)
| every_Throw e : every_call P (Throw e)
| every_Out o k : every_call P k -> every_call P (Out o k)
| every_Call c k :
    P c -> (forall r, every_call P (k r)) -> every_call P (Call c k)
| every_Proc argv k :
    (forall rc, every_call P (k rc)) -> every_call P (Proc argv k).

Definition lib_event (P : call -> Prop) (ev : event) : Prop :=
  match ev with
  | ELib c _ => P c
  | _ => True
  end.

(** ** colab_openunmix.py *)

Module ColabOpenunmix.
Section Script.
(** [sys.executable] *)
Variable sys_executable : string.

Definition convert_openunmix : prog unit :=
  print [Lit "Loading OpenUnmix (umxhq)..."] ;;
  separator <- call_ (load_separator
    [("model_str", VStr "umxhq"); ("niter", VInt 1);
     ("residual", VBool true); ("device", VStr "cpu")]) ;;
  call_ (nn_Module_eval separator) ;;
  print [Lit "Tracing model..."] ;;
  let samples := 44100 * 10 in
  example_input <- call_ (torch_randn [1; 2; samples]) ;;
  traced_model <- torch_jit_trace separator example_input None ;;
  print [Lit "Converting to Core ML..."] ;;
  let _input := {| name := "audio"; shape := [Fixed 1; Fixed 2; Fixed samples] |} in
  mlmodel <- call_ (ct_convert traced_model [_input] "mlprogram" FLOAT16 macOS13) ;;
  call_ (setattr mlmodel "author" (VStr "Sangeet AI")) ;;
  call_ (setattr mlmodel "short_description" (VStr "OpenUnmix (UMXHQ)")) ;;
  let output_path := "OpenUnmix.mlpackage" in
  print [Lit "Saving to "; Lit output_path; Lit "..."] ;;
  call_ (MLModel_save mlmodel output_path) ;;
  print [Lit "Zipping..."] ;;
  call_ (shutil_make_archive "OpenUnmix" "zip" output_path) ;;
  print [Lit (nl ++ "✅ SUCCESS!")] ;;
  print [Lit "Download 'OpenUnmix.zip' from files."].

(** The module body, run as a script ([__name__ == "__main__"]). *)
Definition main : prog unit :=
  call_ (import_ "subprocess") ;;
  call_ (import_ "sys") ;;
  print [Lit "⏳ INSTALLING OPENUNMIX..."] ;;
  subprocess_check_call
    [sys_executable; "-m"; "pip"; "install"; "openunmix"; "torch";
     "torchaudio"; "coremltools"; "numpy<2"] ;;
  call_ (import_ "torch") ;;
  call_ (import_ "openunmix") ;;
  call_ (import_ "coremltools") ;;
  call_ (import_ "shutil") ;;
  convert_openunmix.
End Script.
End ColabOpenunmix.

(** ** scripts/convert_openunmix.py *)

Module ConvertOpenunmix.
Definition convert_openunmix : prog unit :=
  print [Lit "Loading OpenUnmix (umxhq)..."] ;;
  separator <- call_ (load_separator
    [("model_str_or_path", VStr "umxhq"); ("niter", VInt 1);
     ("residual", VBool true); ("device", VStr "cpu")]) ;;
  call_ (nn_Module_eval separator) ;;
  print [Lit "Tracing model..."] ;;
  let samples := 44100 * 3 in
  example_input <- call_ (torch_randn [1; 2; samples]) ;;
  traced_model <- torch_jit_trace separator example_input (Some false) ;;
  print [Lit "Converting to Core ML..."] ;;
  let _input := {| name := "audio"; shape := [Fixed 1; Fixed 2; Fixed samples] |} in
  mlmodel <- call_ (ct_convert traced_model [_input] "mlprogram" FLOAT16 macOS13) ;;
  call_ (setattr mlmodel "author" (VStr "Sangeet AI")) ;;
  call_ (setattr mlmodel "short_description" (VStr "OpenUnmix (UMXHQ)")) ;;
  let output_path := "OpenUnmix.mlpackage" in
  print [Lit "Saving to "; Lit output_path; Lit "..."] ;;
  call_ (MLModel_save mlmodel output_path) ;;
  print [Lit (nl ++ "✅ SUCCESS!")].

Definition main : prog unit :=
  call_ (import_ "torch") ;;
  call_ (import_ "openunmix") ;;
  call_ (import_ "coremltools") ;;
  call_ (import_ "shutil") ;;
  call_ (import_ "os") ;;
  convert_openunmix.
End ConvertOpenunmix.

(** ** scripts/convert_openunmix_spectral.py *)

Module ConvertOpenunmixSpectral.
Definition convert_spectral : prog unit :=
  print [Lit "Loading OpenUnmix Vocals Model..."] ;;
  separator <- call_ (load_separator
    [("model_str_or_path", VStr "umxhq"); ("niter", VInt 1);
     ("residual", VBool true); ("device", VStr "cpu")]) ;;
  target_models <- lift (getattr separator "target_models") ;;
  vocals_model <- lift (getitem target_models (VStr "vocals")) ;;
  call_ (nn_Module_eval vocals_model) ;;
  let nb_channels := 2 in
  let nb_bins := 2049 in
  let dummy_frames := 100 in
  dummy_input <- call_ (torch_randn [1; nb_channels; nb_bins; dummy_frames]) ;;
  dummy_input_shape <- lift (getattr dummy_input "shape") ;;
  print [Lit "Tracing with input: "; Str dummy_input_shape; Lit "..."] ;;
  traced_model <- torch_jit_trace vocals_model dummy_input None ;;
  print [Lit "Converting to Core ML..."] ;;
  let time_dim := RangeDim 10 5000 100 in
  let _input := {| name := "magnitude_spectrogram";
                   shape := [Fixed 1; Fixed 2; Fixed 2049; time_dim] |} in
  mlmodel <- call_ (ct_convert traced_model [_input] "mlprogram" FLOAT16 macOS13) ;;
  call_ (setattr mlmodel "author" (VStr "Sangeet AI")) ;;
  call_ (setattr mlmodel "short_description" (VStr "OpenUnmix Vocals (Spectral)")) ;;
  let output_path := "OpenUnmixSpectrogram.mlpackage" in
  print [Lit "Saving to "; Lit output_path; Lit "..."] ;;
  call_ (MLModel_save mlmodel output_path) ;;
  print [Lit "Zipping..."] ;;
  call_ (shutil_make_archive "OpenUnmixSpectrogram" "zip" output_path) ;;
  print [Lit (nl ++ "✅ SUCCESS!")].

Definition main : prog unit :=
  call_ (import_ "torch") ;;
  call_ (import_ "openunmix.utils") ;;
  call_ (import_ "coremltools") ;;
  call_ (import_ "shutil") ;;
  call_ (import_ "os") ;;
  convert_spectral.
End ConvertOpenunmixSpectral.

(** ** scripts/inspect_umx.py *)

Module InspectUmx.
(** The first try block: candidate (1, 2, 2049, 100). *)
Definition attempt_1 (vocals dummy_spec : value) : prog unit :=
  try_except
    (out <- call_ (nn_Module___call__ vocals dummy_spec) ;;
     out_shape <- lift (getattr out "shape") ;;
     print [Lit "Success with (1, 2, 2049, 100). Output: "; Str out_shape])
    (except_Exception (fun e =>
       print [Lit "Failed with (1, 2, 2049, 100): "; StrExn e])).

(** The second try block: candidate (1, 100, 4098). *)
Definition attempt_2 (vocals dummy_spec_2 : value) : prog unit :=
  try_except
    (out <- call_ (nn_Module___call__ vocals dummy_spec_2) ;;
     out_shape <- lift (getattr out "shape") ;;
     print [Lit "Success with (1, 100, 4098): "; Str out_shape])
    (except_Exception (fun e =>
       print [Lit "Failed with (1, 100, 4098): "; StrExn e])).

(** Everything up to the first try block; yields [vocals] and the first
    candidate tensor. *)
Definition setup : prog (value * value) :=
  call_ (import_ "os") ;;
  call_ (import_ "torch") ;;
  call_ (import_ "openunmix.utils") ;;
  separator <- call_ (load_separator
    [("model_str_or_path", VStr "umxhq"); ("niter", VInt 1);
     ("residual", VBool true); ("device", VStr "cpu")]) ;;
  print [Lit "Separator type: "; TypeOf separator] ;;
  print [Lit "Attributes: "; Dir separator] ;;
  (if hasattr separator "models" then
     models <- lift (getattr separator "models") ;;
     models_keys <- lift (keys models) ;;
     print [Lit "Models keys: "; Str models_keys]
   else Ret tt) ;;
  target_models <- lift (getattr separator "target_models") ;;
  vocals <- lift (getitem target_models (VStr "vocals")) ;;
  print [Lit "Vocals Model: "; Str vocals] ;;
  let frames := 100 in
  let freqs := 2049 in
  dummy_spec <- call_ (torch_randn [1; 100; 4098]) ;;
  print [Lit "Attempting to infer shape..."] ;;
  dummy_spec <- call_ (torch_randn [1; 2; 2049; 100]) ;;
  Ret (vocals, dummy_spec).

Definition main : prog unit :=
  vd <- setup ;;
  let vocals := fst vd in
  attempt_1 vocals (snd vd) ;;
  dummy_spec_2 <- call_ (torch_randn [1; 100; 2049 * 2]) ;;
  attempt_2 vocals dummy_spec_2.
End InspectUmx.

(** ** colab_script.py *)

(** The shell script held in [script] is kept in parsed form. *)
Inductive sh_cmd : Type :=
| ShSet (opt : string)
| ShEcho (s : string)
| ShRun (argv : list string)
| ShHeredoc (file : string) (body : prog unit)
| ShPython (file : string).

(** [bash runner.sh]: commands run in order; once [set -e] is in force a
    command with a non-zero status ends the shell with that status; the
    shell's own status is that of the last command run.  A here-document
    that is written successfully becomes a file; [python file] runs the
    script in that file, or exits with status 2 when there is none.  The
    command echo of [set -x] on stderr is not recorded. *)
Fixpoint bash (cmds : list sh_cmd) (errexit : bool)
    (files : list (string * prog unit)) (status : Z) : prog Z :=
  match cmds with
  | [] => Ret status
  | c :: rest =>
      let next := fun files rc =>
        if errexit && negb (rc =? 0) then Ret rc
        else bash rest errexit files rc in
      match c with
      | ShSet opt => bash rest (errexit || String.eqb opt "-e") files 0
      | ShEcho s => Out (Stdout [Lit s]) (next files 0)
      | ShRun argv => Proc argv (fun rc => next files rc)
      | ShHeredoc file body =>
          Proc ["cat"; ">"; file]
            (fun rc => next (if rc =? 0 then (file, body) :: files else files) rc)
      | ShPython file =>
          match lookup file files with
          | Some body => bind (python body) (fun rc => next files rc)
          | None => next files 2
          end
      end
  end.

(** [with open(...) as f: body]: the file is closed on the way out, also
    when the body raises. *)
Fixpoint finally {A : Type} (body : prog A) (fin : prog unit) : prog A :=
  match body with
  | Ret a => fin ;; Ret a
  | Throw e => fin ;; Throw e
  | Out o k => Out o (finally k fin)
  | Call c k => Call c (fun r => finally (k r) fin)
  | Proc argv k => Proc argv (fun rc => finally (k rc) fin)
  end.

Module ColabScript.
(** [class DemucsWrapper(nn.Module)]: [__init__] and [forward]. *)
Definition DemucsWrapper___init__ (id : N) (model : value) : prog value :=
  call_ (nn_Module___init__ "DemucsWrapper") ;;
  let self := VObj "DemucsWrapper" id [("model", model)] in
  self_model <- lift (getattr self "model") ;;
  call_ (nn_Module_eval self_model) ;;
  Ret self.

Definition DemucsWrapper_forward (self x : value) : prog value :=
  self_model <- lift (getattr self "model") ;;
  call_ (apply_model self_model x 0 true (1 # 4) false).

(** [if hasattr(bag_model, 'models'): model = bag_model.models[0]
    else: model = bag_model] *)
Definition select_model (bag_model : value) : result value :=
  if hasattr bag_model "models" then
    match getattr bag_model "models" with
    | Ok models => getitem models (VInt 0)
    | Raise e => Raise e
    end
  else Ok bag_model.

(** The text between [cat <<EOF > run_conversion.py] and [EOF].  The
    script reads [numpy.__version__] for the message and again for the
    test; the attribute does not change in between and is read once here. *)
Definition run_conversion : prog unit :=
  call_ (import_ "torch") ;;
  call_ (import_ "torch.nn") ;;
  call_ (import_ "demucs.pretrained") ;;
  call_ (import_ "demucs.apply") ;;
  call_ (import_ "coremltools") ;;
  call_ (import_ "shutil") ;;
  call_ (import_ "numpy") ;;
  call_ (import_ "sys") ;;
  numpy_version <- call_ numpy___version__ ;;
  print [Lit "Numpy Version inside venv: "; Str numpy_version] ;;
  is_2 <- lift (startswith numpy_version "2") ;;
  (if is_2 : bool then
     print [Lit "❌ Error: Numpy 2.x still present!"] ;;
     sys_exit 1
   else Ret tt) ;;
  print [Lit "Downloading Demucs..."] ;;
  bag_model <- call_ (get_model "htdemucs") ;;
  model <- lift (select_model bag_model) ;;
  call_ (nn_Module_eval model) ;;
  print [Lit "Tracing..."] ;;
  let samples := 343980 in
  example_input <- call_ (torch_randn [1; 2; samples]) ;;
  traced_model <- torch_jit_trace model example_input None ;;
  print [Lit "Converting..."] ;;
  let _input := {| name := "audio"; shape := [Fixed 1; Fixed 2; Fixed samples] |} in
  mlmodel <- call_ (ct_convert traced_model [_input] "mlprogram" FLOAT16 macOS13) ;;
  let output_path := "Demucs.mlpackage" in
  call_ (MLModel_save mlmodel output_path) ;;
  call_ (shutil_make_archive "Demucs" "zip" output_path) ;;
  print [Lit "✅ Done! Output at Demucs.zip"].

Definition script : list sh_cmd :=
  [ ShSet "-x";
    ShSet "-e";
    ShEcho "🚀 Setting up isolated environment...";
    ShRun ["python3"; "--version"];
    ShRun ["python3"; "-m"; "venv"; "venv"];
    ShRun ["source"; "venv/bin/activate"];
    ShEcho "📦 Installing clean dependencies...";
    ShRun ["pip"; "install"; "--upgrade"; "pip"];
    ShRun ["pip"; "install"; "numpy<2"];
    ShRun ["pip"; "install"; "torch==2.4.0"; "torchaudio==2.4.0";
           "--index-url"; "https://download.pytorch.org/whl/cpu"];
    ShRun ["pip"; "install"; "demucs"; "coremltools"];
    ShEcho "✅ Environment Ready.";
    ShHeredoc "run_conversion.py" run_conversion;
    ShEcho "🏃 Running conversion script...";
    ShPython "run_conversion.py" ].

(** The module-level invocation: [subprocess.run(["bash", "runner.sh"],
    check=True, text=True, capture_output=False)] inside
    [try: ... except subprocess.CalledProcessError as e: print(...)]. *)
Definition run_runner : prog unit :=
  try_except
    (result <- subprocess_run (bash script false [] 0) true ;; Ret tt)
    (except_CalledProcessError (fun returncode =>
       print [Lit (nl ++ "❌ Script failed with code "); Str returncode])).

Definition main : prog unit :=
  call_ (import_ "subprocess") ;;
  f <- call_ (open_ "runner.sh" "w") ;;
  finally (call_ (file_write_script f)) (call_ (file_close f) ;; Ret tt) ;;
  print [Lit "Starting isolated shell execution..."] ;;
  print [Lit "----------------------------------------------------------------"] ;;
  run_runner.
End ColabScript.

(** ** A sample environment

    Every library call succeeds with a plausible object; the world is a
    counter that supplies object identities.  The numpy version reported
    and the status of the pip/bash commands are parameters. *)

Module Sample.
Definition vocals_net : value := VObj "OpenUnmix" 1 [].

Definition separator : value :=
  VObj "Separator" 2
    [("target_models",
      VDict [("vocals", vocals_net); ("drums", VObj "OpenUnmix" 3 []);
             ("bass", VObj "OpenUnmix" 4 []); ("other", VObj "OpenUnmix" 5 [])])].

Definition htdemucs : value := VObj "HTDemucs" 6 [].

Definition bag : value :=
  VObj "BagOfModels" 7 [("models", VList [htdemucs; VObj "HTDemucs" 8 []])].

Definition handle (numpy_version : string) (c : call) (n : N)
  : N * result value :=
  (N.succ n,
   match c with
   | import_ module => Ok (VObj "module" n [("__name__", VStr module)])
   | numpy___version__ => Ok (VStr numpy_version)
   | subprocess_call _ => Ok (VInt 0)
   | open_ path _ => Ok (VObj "TextIOWrapper" n [("name", VStr path)])
   | file_write_script _ => Ok (VInt 2048)
   | file_close _ => Ok VNone
   | load_separator _ => Ok separator
   | get_model _ => Ok bag
   | apply_model _ x _ _ _ _ => Ok x
   | nn_Module___init__ _ => Ok VNone
   | nn_Module_eval m => Ok m
   | nn_Module___call__ _ x =>
       match x with
       | VTensor [nb_samples; nb_channels; nb_bins; nb_frames] =>
           Ok (VTensor [nb_frames; nb_samples; nb_channels; nb_bins])
       | _ => Raise (Exception "RuntimeError" "not enough values to unpack")
       end
   | torch_randn size => Ok (VTensor size)
   | jit_trace _ _ _ => Ok (VObj "TopLevelTracedModule" n [])
   | ct_convert _ _ _ _ _ => Ok (VObj "MLModel" n [])
   | setattr _ _ _ => Ok VNone
   | MLModel_save _ _ => Ok VNone
   | shutil_make_archive base_name format _ =>
       Ok (VStr (base_name ++ "." ++ format))
   end).

Definition spawn (argv : list string) (n : N) : N * Z := (N.succ n, 0).
End Sample.

(** * Properties *)

(** ** Vocabulary of the statements *)

(** What the export scripts ask of the converter. *)

Definition audio_input (samples : Z) : TensorType :=
  {| name := "audio"; shape := [Fixed 1; Fixed 2; Fixed samples] |}.

Definition spectrogram_input : TensorType :=
  {| name := "magnitude_spectrogram";
     shape := [Fixed 1; Fixed 2; Fixed 2049; RangeDim 10 5000 100] |}.

(** The call, if it is a conversion, declares exactly [inputs]. *)
Definition declares (inputs : list TensorType) (c : call) : Prop :=
  match c with
  | ct_convert _ inputs' _ _ _ => inputs' = inputs
  | _ => True
  end.

(** The call, if it creates an example tensor, creates one of shape [size]. *)
Definition example_of (size : list Z) (c : call) : Prop :=
  match c with
  | torch_randn size' => size' = size
  | _ => True
  end.

(** The call, if it is a conversion, asks for half precision. *)
Definition half_precision (c : call) : Prop :=
  match c with
  | ct_convert _ _ _ compute_precision _ => compute_precision = FLOAT16
  | _ => True
  end.

(** The call, if it captures a trace, has output validation set to [b]. *)
Definition validation (b : bool) (c : call) : Prop :=
  match c with
  | jit_trace _ _ check_trace => check_trace = b
  | _ => True
  end.

(** The call is neither the construction of a wrapper module nor segmented
    inference. *)
Definition no_wrapper (c : call) : Prop :=
  match c with
  | nn_Module___init__ _ => False
  | apply_model _ _ _ _ _ _ => False
  | _ => True
  end.

(** The four export scripts. *)
Inductive export : Type :=
| ColabWaveform (sys_executable : string)
| StandaloneWaveform
| SpectralVocals
| Demucs.

Definition export_script (x : export) : prog unit :=
  match x with
  | ColabWaveform sys_executable => ColabOpenunmix.main sys_executable
  | StandaloneWaveform => ConvertOpenunmix.main
  | SpectralVocals => ConvertOpenunmixSpectral.main
  | Demucs => ColabScript.run_conversion
  end.

Definition export_inputs (x : export) : list TensorType :=
  match x with
  | ColabWaveform _ => [audio_input 441000]
  | StandaloneWaveform => [audio_input 132300]
  | SpectralVocals => [spectrogram_input]
  | Demucs => [audio_input 343980]
  end.

Definition export_example (x : export) : list Z :=
  match x with
  | ColabWaveform _ => [1; 2; 441000]
  | StandaloneWaveform => [1; 2; 132300]
  | SpectralVocals => [1; 2; 2049; 100]
  | Demucs => [1; 2; 343980]
  end.

Definition export_package (x : export) : string :=
  match x with
  | ColabWaveform _ => "OpenUnmix.mlpackage"
  | StandaloneWaveform => "OpenUnmix.mlpackage"
  | SpectralVocals => "OpenUnmixSpectrogram.mlpackage"
  | Demucs => "Demucs.mlpackage"
  end.

Definition export_validation (x : export) : bool :=
  match x with
  | StandaloneWaveform => false
  | _ => true
  end.

(** The model a call evaluates or traces. *)
Definition uses_model (c : call) : option value :=
  match c with
  | nn_Module_eval m => Some m
  | jit_trace func _ _ => Some func
  | _ => None
  end.

(** A script without exception handlers: the exception of a failing call
    is the script's own. *)
Inductive fail_fast {A : Type} : prog A -> Prop :=
| ff_Ret a : fail_fast (Ret a)
| ff_Throw e : fail_fast (Throw e)
| ff_Out o k : fail_fast k -> fail_fast (Out o k)
| ff_Call c k :
    (forall e, k (Raise e) = Throw e) ->
    (forall v, fail_fast (k (Ok v))) ->
    fail_fast (Call c k)
| ff_Proc argv k : (forall rc, fail_fast (k rc)) -> fail_fast (Proc argv k).

Definition no_failure (ev : event) : Prop :=
  match ev with
  | EProc _ rc => rc = 0
  | ELib _ (Raise e) => is_Exception e = false
  | _ => True
  end.

Definition failed_with_code (rc : Z) : event :=
  EOut (Stdout [Lit (nl ++ "❌ Script failed with code "); Str (VInt rc)]).

(** The major version of a version string, as the specification speaks of
    it: the decimal number before the first dot. *)
Fixpoint before_dot (s : string) : string :=
  match s with
  | EmptyString => EmptyString
  | String c rest =>
      if Ascii.eqb c "."%char then EmptyString else String c (before_dot rest)
  end.

Definition major_version (v : string) : option N :=
  option_map N.of_uint (NilZero.uint_of_string (before_dot v)).

(** Calls made before any model is fetched, traced or converted. *)
Definition before_model_work (c : call) : Prop :=
  match c with
  | import_ _ => True
  | numpy___version__ => True
  | _ => False
  end.

Definition numpy_2_diagnostic : event :=
  EOut (Stdout [Lit "❌ Error: Numpy 2.x still present!"]).

(** The version check as the specification words it: every reported major
    version of 2 or more ends the run with a non-zero status. *)
Definition rejects_major_2_or_more : Prop :=
  forall (W : Type) (handle : call -> W -> W * result value)
         (spawn : list string -> W -> W * Z) (w : W) (v : string) (m : N),
    let p := python ColabScript.run_conversion in
    In (ELib numpy___version__ (Ok (VStr v))) (trace handle spawn p w) ->
    major_version v = Some m -> (2 <= m)%N ->
    exists rc, outcome handle spawn p w = Ok rc /\ rc <> 0.

(** The invoking process ends with the status of its child. *)
Definition propagates_child_status : Prop :=
  forall (W : Type) (handle : call -> W -> W * result value)
         (spawn : list string -> W -> W * Z) (w : W) (rc : Z),
    outcome handle spawn (bash ColabScript.script false [] 0) w = Ok rc ->
    outcome handle spawn (python ColabScript.run_runner) w = Ok rc.

(** What a try block of the probe prints for the answer [r] of the model,
    if the answer is one the block handles. *)
Definition probe_report (ok failed : string) (r : result value) : option output :=
  let caught := fun e =>
    if is_Exception e then Some (Stdout [Lit failed; StrExn e]) else None in
  match r with
  | Ok out =>
      match getattr out "shape" with
      | Ok out_shape => Some (Stdout [Lit ok; Str out_shape])
      | Raise e => caught e
      end
  | Raise e => caught e
  end.

Definition ok_1 : string := "Success with (1, 2, 2049, 100). Output: ".
Definition failed_1 : string := "Failed with (1, 2, 2049, 100): ".
Definition ok_2 : string := "Success with (1, 100, 4098): ".
Definition failed_2 : string := "Failed with (1, 100, 4098): ".

(** ** Vocabulary of the further properties *)

(** [a] occurs in the trace and [b] occurs later. *)
Inductive precedes (a b : event) : list event -> Prop :=
| precedes_here t : In b t -> precedes a b (a :: t)
| precedes_later x t : precedes a b t -> precedes a b (x :: t).

(** The description an export attaches to its package, if it attaches one. *)
Definition export_description (x : export) : option string :=
  match x with
  | ColabWaveform _ => Some "OpenUnmix (UMXHQ)"
  | StandaloneWaveform => Some "OpenUnmix (UMXHQ)"
  | SpectralVocals => Some "OpenUnmix Vocals (Spectral)"
  | Demucs => None
  end.

(** The base name of the archive an export makes, if it makes one. *)
Definition export_archive (x : export) : option string :=
  match x with
  | ColabWaveform _ => Some "OpenUnmix"
  | StandaloneWaveform => None
  | SpectralVocals => Some "OpenUnmixSpectrogram"
  | Demucs => Some "Demucs"
  end.

(** The last line an export prints when it runs to its end. *)
Definition export_last_line (x : export) : list fragment :=
  match x with
  | ColabWaveform _ => [Lit "Download 'OpenUnmix.zip' from files."]
  | StandaloneWaveform => [Lit (nl ++ "✅ SUCCESS!")]
  | SpectralVocals => [Lit (nl ++ "✅ SUCCESS!")]
  | Demucs => [Lit "✅ Done! Output at Demucs.zip"]
  end.

(** The call, if it is a conversion, asks for an ML program for macOS 13. *)
Definition mlprogram_macOS13 (c : call) : Prop :=
  match c with
  | ct_convert _ _ convert_to _ minimum_deployment_target =>
      convert_to = "mlprogram" /\ minimum_deployment_target = macOS13
  | _ => True
  end.

(** The call does not attach metadata. *)
Definition no_setattr (c : call) : Prop :=
  match c with
  | setattr _ _ _ => False
  | _ => True
  end.

(** The call does not make an archive. *)
Definition no_archive (c : call) : Prop :=
  match c with
  | shutil_make_archive _ _ _ => False
  | _ => True
  end.

(** The call does not touch a model: no evaluation mode, no forward pass,
    no trace, no conversion, nothing saved or archived. *)
Definition no_model_use (c : call) : Prop :=
  match c with
  | nn_Module_eval _ => False
  | nn_Module___call__ _ _ => False
  | jit_trace _ _ _ => False
  | ct_convert _ _ _ _ _ => False
  | MLModel_save _ _ => False
  | shutil_make_archive _ _ _ => False
  | _ => True
  end.

(** The call is an import or the installation command. *)
Definition install_or_import (c : call) : Prop :=
  match c with
  | import_ _ => True
  | subprocess_call _ => True
  | _ => False
  end.

(** The calls the shape probe makes: imports, loading the separator,
    creating tensors, calling the sub-model. *)
Definition probe_call (c : call) : Prop :=
  match c with
  | import_ _ => True
  | load_separator _ => True
  | torch_randn _ => True
  | nn_Module___call__ _ _ => True
  | _ => False
  end.

Definition is_forward_pass (ev : event) : bool :=
  match ev with
  | ELib (nn_Module___call__ _ _) _ => true
  | _ => false
  end.

(** The shell command, if this is one, ended with status 0. *)
Definition command_ok (ev : event) : Prop :=
  match ev with
  | EProc _ rc => rc = 0
  | _ => True
  end.

(** Environments in which one step goes wrong. *)
Module Faulty.
(** pip exits with status 1. *)
Definition pip_fails (c : call) (n : N) : N * result value :=
  match c with
  | subprocess_call _ => (N.succ n, Ok (VInt 1))
  | _ => Sample.handle "1.26.4" c n
  end.

(** The pretrained bag holds no model. *)
Definition empty_bag (c : call) (n : N) : N * result value :=
  match c with
  | get_model _ => (N.succ n, Ok (VObj "BagOfModels" 7 [("models", VList [])]))
  | _ => Sample.handle "1.26.4" c n
  end.

(** The separator has no vocals target. *)
Definition no_vocals (c : call) (n : N) : N * result value :=
  match c with
  | load_separator _ =>
      (N.succ n,
       Ok (VObj "Separator" 2
             [("target_models", VDict [("drums", VObj "OpenUnmix" 3 [])])]))
  | _ => Sample.handle "1.26.4" c n
  end.



(** Writing runner.sh fails. *)
Definition write_fails (c : call) (n : N) : N * result value :=
  match c with
  | file_write_script _ => (N.succ n, Raise (Exception "OSError" "No space left on device"))
  | _ => Sample.handle "1.26.4" c n
  end.

(** The shell command started when the world counter is [k] exits with
    status 1. *)
Definition spawn_fails_at (k : N) (argv : list string) (n : N) : N * Z :=
  (N.succ n, if N.eqb n k then 1 else 0).
End Faulty.

(** A script that starts no shell command of its own. *)
Inductive no_proc {A : Type} : prog A -> Prop :=
| np_Ret a : no_proc (Ret a)
| np_Throw e : no_proc (Throw e)
| np_Out o k : no_proc k -> no_proc (Out o k)
| np_Call c k : (forall r, no_proc (k r)) -> no_proc (Call c k).

Definition not_command (ev : event) : Prop :=
  match ev with
  | EProc _ _ => False
  | _ => True
  end.

(** The calls that write runner.sh. *)
Definition writes_runner (c : call) : Prop :=
  match c with
  | open_ _ _ => True
  | file_write_script _ => True
  | file_close _ => True
  | _ => False
  end.

(** ** Proofs *)

(** ** Generic facts about scripts *)

Lemma every_call_bind {A B : Type} (P : call -> Prop) (p : prog A) (f : A -> prog B) :
  every_call P p -> (forall a, every_call P (f a)) -> every_call P (bind p f).
Proof.
  intros Hp Hf. induction Hp; cbn; try constructor; auto.
Qed.

Lemma every_call_lift {A : Type} (P : call -> Prop) (r : result A) :
  every_call P (lift r).
Proof. destruct r; constructor. Qed.

Lemma every_call_call_ (P : call -> Prop) (c : call) :
  P c -> every_call P (call_ c).
Proof. intros Hc. constructor; [exact Hc | intro r; apply every_call_lift]. Qed.

Lemma every_call_print {P : call -> Prop} (line : list fragment) :
  every_call P (print line).
Proof. repeat constructor. Qed.

Lemma every_call_try_except {A : Type} (P : call -> Prop) (body : prog A)
    (handler : exn -> option (prog A)) :
  every_call P body ->
  (forall e h, handler e = Some h -> every_call P h) ->
  every_call P (try_except body handler).
Proof.
  intros Hb Hh. induction Hb; cbn; try constructor; auto.
  destruct (handler e) eqn:E; [eapply Hh; eassumption | constructor].
Qed.

Lemma every_call_finally {A : Type} (P : call -> Prop) (body : prog A)
    (fin : prog unit) :
  every_call P body -> every_call P fin -> every_call P (finally body fin).
Proof.
  intros Hb Hf. induction Hb; cbn; try constructor; auto;
    apply every_call_bind; auto; intros; constructor.
Qed.

Lemma every_call_python (P : call -> Prop) (p : prog unit) :
  every_call P p -> every_call P (python p).
Proof.
  intros Hp. induction Hp; cbn; try constructor; auto.
  destruct e; repeat constructor.
Qed.

Lemma every_call_bash (P : call -> Prop) (cmds : list sh_cmd) :
  Forall (fun c => match c with
                   | ShHeredoc _ body => every_call P body
                   | _ => True
                   end) cmds ->
  forall errexit files status,
    Forall (fun fb => every_call P (snd fb)) files ->
    every_call P (bash cmds errexit files status).
Proof.
  induction 1 as [|c rest Hc Hrest IH]; intros errexit files status Hfiles; cbn.
  - constructor.
  - assert (Hnext : forall files' rc,
               Forall (fun fb => every_call P (snd fb)) files' ->
               every_call P (if errexit && negb (rc =? 0) then Ret rc
                             else bash rest errexit files' rc)).
    { intros files' rc Hf. destruct (errexit && negb (rc =? 0)); [constructor | auto]. }
    destruct c as [opt | s | argv | file body | file].
    + apply IH; exact Hfiles.
    + constructor. apply (Hnext files 0); exact Hfiles.
    + constructor. intro rc. apply Hnext; exact Hfiles.
    + constructor. intro rc. apply Hnext.
      destruct (rc =? 0); [constructor; [exact Hc | exact Hfiles] | exact Hfiles].
    + destruct (lookup file files) as [body|] eqn:E; [ | apply (Hnext files 2); exact Hfiles].
      apply every_call_bind; [ | intro rc; apply Hnext; exact Hfiles ].
      apply every_call_python.
      clear - E Hfiles. induction Hfiles as [|[f b] l Hb Hl IHl]; cbn in E.
      * discriminate.
      * destruct (String.eqb file f); [inversion E; subst; exact Hb | auto].
Qed.

Lemma every_call_run {W A : Type} (handle : call -> W -> W * result value)
    (spawn : list string -> W -> W * Z) (P : call -> Prop) (p : prog A) :
  every_call P p -> forall w, Forall (lib_event P) (trace handle spawn p w).
Proof.
  unfold trace. induction 1 as [a | e | o k Hk IH | c k Hc Hk IH | argv k Hk IH];
    intro w; cbn.
  - constructor.
  - constructor.
  - specialize (IH w). destruct (run handle spawn k w) as [[t w'] r].
    constructor; [exact I | exact IH].
  - destruct (handle c w) as [w1 a]. specialize (IH a w1).
    destruct (run handle spawn (k a) w1) as [[t w'] r].
    constructor; [exact Hc | exact IH].
  - destruct (spawn argv w) as [w1 rc]. specialize (IH rc w1).
    destruct (run handle spawn (k rc) w1) as [[t w'] r].
    constructor; [exact I | exact IH].
Qed.

Lemma run_bind {W A B : Type} (handle : call -> W -> W * result value)
    (spawn : list string -> W -> W * Z) (p : prog A) (f : A -> prog B) (w : W) :
  run handle spawn (bind p f) w =
  let '(t1, w1, r1) := run handle spawn p w in
  match r1 with
  | Ok a => let '(t2, w2, r2) := run handle spawn (f a) w1 in ((t1 ++ t2)%list, w2, r2)
  | Raise e => (t1, w1, Raise e)
  end.
Proof.
  revert w. induction p as [a | e | o k IH | c k IH | argv k IH]; intro w; cbn.
  - destruct (run handle spawn (f a) w) as [[t2 w2] r2]. reflexivity.
  - reflexivity.
  - rewrite IH. destruct (run handle spawn k w) as [[t1 w1] [a|e]]; cbn.
    + destruct (run handle spawn (f a) w1) as [[t2 w2] r2]. reflexivity.
    + reflexivity.
  - destruct (handle c w) as [w0 a0]. rewrite IH.
    destruct (run handle spawn (k a0) w0) as [[t1 w1] [a|e]]; cbn.
    + destruct (run handle spawn (f a) w1) as [[t2 w2] r2]. reflexivity.
    + reflexivity.
  - destruct (spawn argv w) as [w0 rc]. rewrite IH.
    destruct (run handle spawn (k rc) w0) as [[t1 w1] [a|e]]; cbn.
    + destruct (run handle spawn (f a) w1) as [[t2 w2] r2]. reflexivity.
    + reflexivity.
Qed.

(** Walks through a script, one statement at a time. *)
Ltac every_call_script :=
  repeat lazymatch goal with
  | |- every_call _ (bind _ _) => apply every_call_bind; [ | intros ]
  | |- every_call _ (call_ _) => apply every_call_call_; cbn; auto
  | |- every_call _ (torch_jit_trace _ _ _) => apply every_call_call_; cbn; auto
  | |- every_call _ (lift _) => apply every_call_lift
  | |- every_call _ (print _) => apply every_call_print
  | |- every_call _ (Ret _) => constructor
  | |- every_call _ (Throw _) => constructor
  | |- every_call _ (sys_exit _) => constructor
  | |- every_call _ (if ?b then _ else _) => destruct b
  | |- every_call _ (let x := _ in _) => cbv zeta
  | |- every_call _ (python _) => apply every_call_python
  | |- every_call _ (finally _ _) => apply every_call_finally
  end.

(** Follows one run recorded in [H : run ... = ...]: case analysis on each
    answer of the environment, dropping the branches that contradict [H]. *)
Ltac run_step H handle spawn :=
  cbn in H;
  lazymatch type of H with
  | context [handle ?c ?w] =>
      let E := fresh "E" in destruct (handle c w) as [? [?|?]] eqn:E
  | context [spawn ?a ?w] =>
      let E := fresh "E" in destruct (spawn a w) as [? ?] eqn:E
  | context [lift ?r] => destruct r eqn:?
  | context [match ?e with SystemExit _ => _ | CalledProcessError _ => _
                         | Exception _ _ => _ end] => destruct e
  | context [if ?b then _ else _] => destruct b eqn:?
  end;
  cbn in H; try discriminate H.

Ltac run_script H handle spawn := repeat run_step H handle spawn.

Ltac in_trace := cbn; repeat first [left; reflexivity | right].

(** Case analysis on [H : In ev [e1; ...; en]]. *)
Ltac in_cases H :=
  cbn in H;
  repeat (destruct H as [H | H]; [try discriminate H | ]);
  try contradiction H.

Lemma export_every_call (x : export) :
  every_call (fun c => example_of (export_example x) c /\
                       declares (export_inputs x) c /\ half_precision c /\
                       validation (export_validation x) c /\ no_wrapper c)
    (export_script x).
Proof.
  destruct x; cbn [export_script export_inputs export_validation export_example];
    unfold ColabOpenunmix.main, ColabOpenunmix.convert_openunmix,
      ConvertOpenunmix.main, ConvertOpenunmix.convert_openunmix,
      ConvertOpenunmixSpectral.main, ConvertOpenunmixSpectral.convert_spectral,
      ColabScript.run_conversion, subprocess_check_call;
    every_call_script.
Qed.

Lemma every_call_weaken {A : Type} (P Q : call -> Prop) (p : prog A) :
  (forall c, P c -> Q c) -> every_call P p -> every_call Q p.
Proof. intros HPQ Hp. induction Hp; constructor; auto. Qed.

(** A completed export has traced a model on an example, converted that
    trace with the script's declaration at half precision for macOS 13, and
    saved the converted model under the script's package path. *)
Lemma export_completed {W : Type} (handle : call -> W -> W * result value)
    (spawn : list string -> W -> W * Z) (x : export) (w : W) :
  outcome handle spawn (export_script x) w = Ok tt ->
  exists model example traced mlmodel saved,
    In (ELib (torch_randn (export_example x)) (Ok example))
       (trace handle spawn (export_script x) w) /\
    In (ELib (jit_trace model example (export_validation x)) (Ok traced))
       (trace handle spawn (export_script x) w) /\
    In (ELib (ct_convert traced (export_inputs x) "mlprogram" FLOAT16 macOS13)
             (Ok mlmodel))
       (trace handle spawn (export_script x) w) /\
    In (ELib (MLModel_save mlmodel (export_package x)) (Ok saved))
       (trace handle spawn (export_script x) w).
Proof.
  unfold outcome, trace.
  destruct (run handle spawn (export_script x) w) as [[t w'] r] eqn:Hrun.
  cbn [fst snd]. intros ->.
  destruct x;
    cbn [export_script export_inputs export_validation export_package export_example];
    run_script Hrun handle spawn; inversion Hrun; subst; clear Hrun;
    do 5 eexists; repeat split; in_trace.
Qed.

Lemma demucs_model_is_selected {W : Type} (handle : call -> W -> W * result value)
    (spawn : list string -> W -> W * Z) (w : W) (c : call) (r : result value)
    (m : value) :
  In (ELib c r) (trace handle spawn ColabScript.run_conversion w) ->
  uses_model c = Some m ->
  exists bag_model,
    In (ELib (get_model "htdemucs") (Ok bag_model))
       (trace handle spawn ColabScript.run_conversion w) /\
    ColabScript.select_model bag_model = Ok m.
Proof.
  unfold trace.
  destruct (run handle spawn ColabScript.run_conversion w) as [[t w'] r'] eqn:Hrun.
  cbn [fst snd]. intros Hin Huses.
  run_script Hrun handle spawn; inversion Hrun; subst; clear Hrun;
    in_cases Hin;
    injection Hin as <- <-; cbn in Huses; try discriminate Huses;
    injection Huses as <-;
    eexists; (split; [in_trace | eassumption]).
Qed.

Lemma fail_fast_bind {A B : Type} (p : prog A) (f : A -> prog B) :
  fail_fast p -> (forall a, fail_fast (f a)) -> fail_fast (bind p f).
Proof.
  intros Hp Hf. induction Hp as [a | e | o k Hk IH | c k Hr Hk IH | argv k Hk IH]; cbn.
  - apply Hf.
  - constructor.
  - constructor. exact IH.
  - constructor.
    + intro e. rewrite Hr. reflexivity.
    + intro v. apply IH.
  - constructor. intro rc. apply IH.
Qed.

Lemma fail_fast_call_ (c : call) : fail_fast (call_ c).
Proof. constructor; [reflexivity | intro v; constructor]. Qed.

Lemma fail_fast_lift {A : Type} (r : result A) : fail_fast (lift r).
Proof. destruct r; constructor. Qed.

Ltac fail_fast_script :=
  repeat lazymatch goal with
  | |- fail_fast (bind _ _) => apply fail_fast_bind; [ | intros ]
  | |- fail_fast (call_ _) => apply fail_fast_call_
  | |- fail_fast (torch_jit_trace _ _ _) => apply fail_fast_call_
  | |- fail_fast (lift _) => apply fail_fast_lift
  | |- fail_fast (print _) => repeat constructor
  | |- fail_fast (Ret _) => constructor
  | |- fail_fast (Throw _) => constructor
  | |- fail_fast (sys_exit _) => constructor
  | |- fail_fast (if ?b then _ else _) => destruct b
  | |- fail_fast (let x := _ in _) => cbv zeta
  end.

Lemma export_fail_fast (x : export) : fail_fast (export_script x).
Proof.
  destruct x; cbn [export_script];
    unfold ColabOpenunmix.main, ColabOpenunmix.convert_openunmix,
      ConvertOpenunmix.main, ConvertOpenunmix.convert_openunmix,
      ConvertOpenunmixSpectral.main, ConvertOpenunmixSpectral.convert_spectral,
      ColabScript.run_conversion, subprocess_check_call;
    fail_fast_script.
Qed.

(** Under the interpreter, a raised Exception in a script without handlers
    ends the process at once with a traceback and status 1. *)
Lemma fail_fast_python {W : Type} (handle : call -> W -> W * result value)
    (spawn : list string -> W -> W * Z) (p : prog unit) :
  fail_fast p ->
  forall (w : W) (c : call) (e : exn),
    In (ELib c (Raise e)) (trace handle spawn (python p) w) ->
    is_Exception e = true ->
    outcome handle spawn (python p) w = Ok 1 /\
    last (trace handle spawn (python p) w) (EOut (Traceback e)) = EOut (Traceback e) /\
    In (EOut (Traceback e)) (trace handle spawn (python p) w).
Proof.
  unfold trace, outcome.
  induction 1 as [a | e0 | o k Hk IH | c0 k Hr Hk IH | argv k Hk IH];
    intros w c e Hin He; cbn in *.
  - contradiction.
  - destruct e0; cbn in Hin; try contradiction.
    + destruct Hin as [Hin | []]; discriminate Hin.
    + destruct Hin as [Hin | []]; discriminate Hin.
  - specialize (IH w c e).
    destruct (run handle spawn (python k) w) as [[t w'] r]; cbn in *.
    destruct Hin as [Hin | Hin]; [discriminate Hin | ].
    destruct (IH Hin He) as (Ho & Hl & Hi). repeat split; auto.
    destruct t; [contradiction | exact Hl].
  - destruct (handle c0 w) as [w0 [v | e0]].
    + specialize (IH v w0 c e).
      destruct (run handle spawn (python (k (Ok v))) w0) as [[t w'] r]; cbn in *.
      destruct Hin as [Hin | Hin]; [discriminate Hin | ].
      destruct (IH Hin He) as (Ho & Hl & Hi). repeat split; auto.
      destruct t; [contradiction | exact Hl].
    + rewrite Hr in *. destruct e0; cbn in *.
      * destruct Hin as [Hin | []]. injection Hin as _ <-. discriminate He.
      * destruct Hin as [Hin | [Hin | []]]; [ | discriminate Hin].
        injection Hin as _ <-. auto.
      * destruct Hin as [Hin | [Hin | []]]; [ | discriminate Hin].
        injection Hin as _ <-. auto.
  - destruct (spawn argv w) as [w0 rc]. specialize (IH rc w0 c e).
    destruct (run handle spawn (python (k rc)) w0) as [[t w'] r]; cbn in *.
    destruct Hin as [Hin | Hin]; [discriminate Hin | ].
    destruct (IH Hin He) as (Ho & Hl & Hi). repeat split; auto.
    destruct t; [contradiction | exact Hl].
Qed.

Lemma python_never_raises {W : Type} (handle : call -> W -> W * result value)
    (spawn : list string -> W -> W * Z) (p : prog unit) (w : W) :
  exists t w' rc, run handle spawn (python p) w = (t, w', Ok rc).
Proof.
  revert w. induction p as [a | e | o k IH | c k IH | argv k IH]; intro w; cbn.
  - eauto.
  - destruct e; cbn; eauto.
  - destruct (IH w) as (t & w' & rc & ->). eauto.
  - destruct (handle c w) as [w0 a]. destruct (IH a w0) as (t & w' & rc & ->). eauto.
  - destruct (spawn argv w) as [w0 rc0]. destruct (IH rc0 w0) as (t & w' & rc & ->). eauto.
Qed.

Lemma bash_never_raises {W : Type} (handle : call -> W -> W * result value)
    (spawn : list string -> W -> W * Z) (cmds : list sh_cmd) :
  forall errexit files status (w : W),
  exists t w' rc, run handle spawn (bash cmds errexit files status) w = (t, w', Ok rc).
Proof.
  induction cmds as [|c rest IH]; intros errexit files status w; cbn [bash].
  - cbn. eauto.
  - assert (Hnext : forall files' rc w1, exists t w' rc',
               run handle spawn (if errexit && negb (rc =? 0) then Ret rc
                                 else bash rest errexit files' rc) w1
               = (t, w', Ok rc')).
    { intros files' rc w1. destruct (errexit && negb (rc =? 0)); cbn; eauto. }
    destruct c as [opt | s | argv | file body | file].
    + apply IH.
    + cbn [run]. destruct (Hnext files 0 w) as (t & w' & rc & ->). eauto.
    + cbn [run]. destruct (spawn argv w) as [w0 rc0].
      destruct (Hnext files rc0 w0) as (t & w' & rc & ->). eauto.
    + cbn [run]. destruct (spawn ["cat"; ">"; file] w) as [w0 rc0].
      destruct (Hnext (if rc0 =? 0 then (file, body) :: files else files) rc0 w0)
        as (t & w' & rc & ->). eauto.
    + destruct (lookup file files) as [body|].
      * rewrite run_bind.
        destruct (python_never_raises handle spawn body w) as (t1 & w1 & rc1 & ->).
        destruct (Hnext files rc1 w1) as (t & w' & rc & ->). eauto.
      * apply Hnext.
Qed.

(** The parent waits for the child and reports a non-zero status; its own
    status is 0 either way. *)
Lemma run_guarded_child {W : Type} (handle : call -> W -> W * result value)
    (spawn : list string -> W -> W * Z) (msg : string) (child : prog Z) :
  forall (w w' : W) (t : list event) (rc : Z),
    run handle spawn child w = (t, w', Ok rc) ->
    run handle spawn
      (python (try_except (result <- subprocess_run child true ;; Ret tt)
                 (except_CalledProcessError (fun returncode =>
                    print [Lit msg; Str returncode])))) w
    = ((t ++ (if rc =? 0 then [] else [EOut (Stdout [Lit msg; Str (VInt rc)])]))%list,
       w', Ok 0).
Proof.
  unfold subprocess_run.
  induction child as [a | e | o k IH | c k IH | argv k IH]; intros w w' t rc Hrun;
    cbn in *.
  - injection Hrun as <- <- <-. destruct (a =? 0); reflexivity.
  - discriminate Hrun.
  - destruct (run handle spawn k w) as [[t1 w1] r1] eqn:Hk.
    injection Hrun as <- <- ->.
    rewrite (IH _ _ _ _ Hk). reflexivity.
  - destruct (handle c w) as [w0 a].
    destruct (run handle spawn (k a) w0) as [[t1 w1] r1] eqn:Hk.
    injection Hrun as <- <- ->.
    rewrite (IH _ _ _ _ _ Hk). reflexivity.
  - destruct (spawn argv w) as [w0 rc0].
    destruct (run handle spawn (k rc0) w0) as [[t1 w1] r1] eqn:Hk.
    injection Hrun as <- <- ->.
    rewrite (IH _ _ _ _ _ Hk). reflexivity.
Qed.

Lemma run_python {W : Type} (handle : call -> W -> W * result value)
    (spawn : list string -> W -> W * Z) (p : prog unit) (w : W) :
  run handle spawn (python p) w =
  let '(t, w', r) := run handle spawn p w in
  match r with
  | Ok _ => (t, w', Ok 0)
  | Raise (SystemExit code) => (t, w', Ok code)
  | Raise e => ((t ++ [EOut (Traceback e)])%list, w', Ok 1)
  end.
Proof.
  revert w. induction p as [a | e | o k IH | c k IH | argv k IH]; intro w; cbn.
  - reflexivity.
  - destruct e; reflexivity.
  - rewrite IH. destruct (run handle spawn k w) as [[t w'] [a | [code | rc | cls msg]]];
      reflexivity.
  - destruct (handle c w) as [w0 a0]. rewrite IH.
    destruct (run handle spawn (k a0) w0) as [[t w'] [a | [code | rc | cls msg]]];
      reflexivity.
  - destruct (spawn argv w) as [w0 rc0]. rewrite IH.
    destruct (run handle spawn (k rc0) w0) as [[t w'] [a | [code | rc | cls msg]]];
      reflexivity.
Qed.

Lemma script_zero_means_clean {W : Type} (handle : call -> W -> W * result value)
    (spawn : list string -> W -> W * Z) (w w' : W) (t : list event) (rc : Z) :
  run handle spawn (bash ColabScript.script false [] 0) w = (t, w', Ok rc) ->
  rc = 0 -> Forall no_failure t.
Proof.
  intros Hrun Hrc.
  run_script Hrun handle spawn.
  all: injection Hrun as <- <- <-.
  all: try discriminate Hrc.
  all: repeat match goal with
       | H : negb (?z =? 0) = true |- _ =>
           apply negb_true_iff, Z.eqb_neq in H
       | H : negb (?z =? 0) = false |- _ =>
           apply negb_false_iff, Z.eqb_eq in H
       | H : (?z =? 0) = true |- _ => apply Z.eqb_eq in H
       | H : (?z =? 0) = false |- _ => apply Z.eqb_neq in H
       end.
  all: try contradiction.
  all: try congruence.
  all: subst; repeat constructor.
Qed.

(** C3, as worded. A reported version 3.0.0 has major version 3, yet the
    check lets it through: the run goes on to fetch the model and ends with
    status 0. *)
Lemma numpy_3_not_rejected : ~ rejects_major_2_or_more.
Proof.
  intro H.
  destruct (H N (Sample.handle "3.0.0") Sample.spawn 0%N "3.0.0" 3%N)
    as [rc [Hrc Hnz]].
  - vm_compute. tauto.
  - reflexivity.
  - vm_compute. discriminate.
  - vm_compute in Hrc. injection Hrc as <-. apply Hnz. reflexivity.
Qed.

(** C3, amended. In the Demucs conversion script, if the numpy version read
    by the check starts with the character 2 (every 2.x release), the script
    prints its diagnostic and exits at once with status 1: the diagnostic
    is the last event and nothing but imports and the version read has
    happened.  If the version does not start with 2 the check passes and
    the script goes on to fetch the model. *)
Theorem numpy_2_prefix_rejected :
  forall (W : Type) (handle : call -> W -> W * result value)
         (spawn : list string -> W -> W * Z) (w : W) (v : string),
    let p := python ColabScript.run_conversion in
    In (ELib numpy___version__ (Ok (VStr v))) (trace handle spawn p w) ->
    (String.prefix "2" v = true ->
       outcome handle spawn p w = Ok 1 /\
       last (trace handle spawn p w) (EOut (Stdout [])) = numpy_2_diagnostic /\
       Forall (lib_event before_model_work) (trace handle spawn p w)) /\
    (String.prefix "2" v = false ->
       In (EOut (Stdout [Lit "Downloading Demucs..."])) (trace handle spawn p w) /\
       exists r, In (ELib (get_model "htdemucs") r) (trace handle spawn p w)).
Proof.
  intros W handle spawn w v p. unfold trace, outcome. subst p.
  destruct (run handle spawn (python ColabScript.run_conversion) w)
    as [[t w'] r] eqn:Hrun.
  cbn [fst snd]. intros Hin.
  run_script Hrun handle spawn.
  all: injection Hrun as <- <- <-.
  all: in_cases Hin.
  all: injection Hin as ->.
  all: cbn in *; try discriminate.
  all: match goal with H : Ok _ = Ok _ |- _ => injection H as H end.
  all: split; intros Hp; try congruence.
  all: try (split; [reflexivity | split; [reflexivity | repeat constructor]]).
  all: split; [in_trace | eexists; in_trace].
Qed.

(** C4, as worded. With numpy 2.0.1 in the environment the child shell ends
    with status 1, and the invoking process ends with status 0. *)
Lemma child_status_not_propagated : ~ propagates_child_status.
Proof.
  intro H.
  specialize (H N (Sample.handle "2.0.1") Sample.spawn 0%N 1).
  assert (Hchild : outcome (Sample.handle "2.0.1") Sample.spawn
                     (bash ColabScript.script false [] 0) 0%N = Ok 1)
    by (vm_compute; reflexivity).
  specialize (H Hchild). vm_compute in H. discriminate H.
Qed.

(** C4, amended. The invoking process of colab_script.py waits for the
    child shell: every event of the child precedes anything the parent does
    next.  The child ends with status 0 only if no command failed and no
    library call raised an Exception.  When the child's status is not 0 the
    parent prints a diagnostic that names the status, and in either case
    the parent itself ends normally, with status 0: the child's status is
    reported, not propagated.  In each export script proper, which has no
    handler, an Exception raised by a library call ends the process with a
    traceback as its last output and status 1. *)
Theorem child_failure_reported_not_propagated :
  forall (W : Type) (handle : call -> W -> W * result value)
         (spawn : list string -> W -> W * Z) (w : W),
    (exists t w' rc,
        run handle spawn (bash ColabScript.script false [] 0) w = (t, w', Ok rc) /\
        (rc = 0 -> Forall no_failure t) /\
        run handle spawn (python ColabScript.run_runner) w
        = ((t ++ (if rc =? 0 then [] else [failed_with_code rc]))%list, w', Ok 0)) /\
    (forall (x : export) (c : call) (e : exn),
        let p := python (export_script x) in
        In (ELib c (Raise e)) (trace handle spawn p w) ->
        is_Exception e = true ->
        outcome handle spawn p w = Ok 1 /\
        last (trace handle spawn p w) (EOut (Traceback e)) = EOut (Traceback e) /\
        In (EOut (Traceback e)) (trace handle spawn p w)).
Proof.
  intros W handle spawn w. split.
  - destruct (bash_never_raises handle spawn ColabScript.script false [] 0 w)
      as (t & w' & rc & Hrun).
    exists t, w', rc. split; [exact Hrun | split].
    + apply (script_zero_means_clean handle spawn w w' t rc Hrun).
    + apply (run_guarded_child handle spawn _ _ w w' t rc Hrun).
  - intros x c e p. apply fail_fast_python. apply export_fail_fast.
Qed.

Lemma child_failure_reported_not_propagated_witness :
  outcome (Sample.handle "1.26.4") Sample.spawn
    (python (export_script StandaloneWaveform)) 0%N = Ok 0 /\
  exists t w' rc,
    run (Sample.handle "2.0.1") Sample.spawn (bash ColabScript.script false [] 0) 0%N
    = (t, w', Ok rc) /\
    rc = 1 /\
    run (Sample.handle "2.0.1") Sample.spawn (python ColabScript.run_runner) 0%N
    = ((t ++ [failed_with_code 1])%list, w', Ok 0).
Proof.
  split; [vm_compute; reflexivity | ].
  destruct (child_failure_reported_not_propagated N (Sample.handle "2.0.1")
              Sample.spawn 0%N) as [(t & w' & rc & Hrun & _ & Hparent) _].
  assert (Hrc : rc = 1).
  { vm_compute in Hrun. injection Hrun as _ _ <-. reflexivity. }
  subst rc. exists t, w', 1. repeat split; assumption.
Defined.

(** C8. Each try block of the probe calls the loaded sub-model on its
    candidate tensor.  If the model answers with a tensor the block prints
    the candidate shape and the output shape; if the call raises an
    Exception the block catches it, prints the candidate shape and the
    exception, and completes normally.  In the whole script, once the first
    block has reported, success or caught failure alike, the second
    candidate tensor is created and the second block runs on it, and the
    script ends normally. *)
Theorem probe_reports_and_continues :
  forall (W : Type) (handle : call -> W -> W * result value)
         (spawn : list string -> W -> W * Z) (w : W),
    (forall vocals x w1 r o,
        handle (nn_Module___call__ vocals x) w = (w1, r) ->
        probe_report ok_1 failed_1 r = Some o ->
        run handle spawn (InspectUmx.attempt_1 vocals x) w
        = ([ELib (nn_Module___call__ vocals x) r; EOut o], w1, Ok tt)) /\
    (forall vocals x w1 r o,
        handle (nn_Module___call__ vocals x) w = (w1, r) ->
        probe_report ok_2 failed_2 r = Some o ->
        run handle spawn (InspectUmx.attempt_2 vocals x) w
        = ([ELib (nn_Module___call__ vocals x) r; EOut o], w1, Ok tt)) /\
    (forall ok failed dims,
        probe_report ok failed (Ok (VTensor dims))
        = Some (Stdout [Lit ok; Str (VSize dims)])) /\
    (forall ok failed e,
        is_Exception e = true ->
        probe_report ok failed (Raise e) = Some (Stdout [Lit failed; StrExn e])) /\
    (forall t0 w0 vocals x1 w1 r1 o1 w2 x2 w3 r2 o2,
        run handle spawn InspectUmx.setup w = (t0, w0, Ok (vocals, x1)) ->
        handle (nn_Module___call__ vocals x1) w0 = (w1, r1) ->
        probe_report ok_1 failed_1 r1 = Some o1 ->
        handle (torch_randn [1; 100; 4098]) w1 = (w2, Ok x2) ->
        handle (nn_Module___call__ vocals x2) w2 = (w3, r2) ->
        probe_report ok_2 failed_2 r2 = Some o2 ->
        run handle spawn (python InspectUmx.main) w
        = ((t0 ++ [ELib (nn_Module___call__ vocals x1) r1; EOut o1;
                   ELib (torch_randn [1; 100; 4098]) (Ok x2);
                   ELib (nn_Module___call__ vocals x2) r2; EOut o2])%list,
           w3, Ok 0)).
Proof.
  intros W handle spawn w.
  assert (H1 : forall w vocals x w1 r o,
        handle (nn_Module___call__ vocals x) w = (w1, r) ->
        probe_report ok_1 failed_1 r = Some o ->
        run handle spawn (InspectUmx.attempt_1 vocals x) w
        = ([ELib (nn_Module___call__ vocals x) r; EOut o], w1, Ok tt)).
  { clear w. intros w vocals x w1 r o Hc Hr. cbn. rewrite Hc.
    destruct r as [out | e]; cbn in Hr |- *.
    - destruct (getattr out "shape") as [s | e]; cbn.
      + injection Hr as <-. reflexivity.
      + unfold except_Exception. destruct (is_Exception e); [ | discriminate Hr].
        injection Hr as <-. reflexivity.
    - unfold except_Exception. destruct (is_Exception e); [ | discriminate Hr].
      injection Hr as <-. reflexivity. }
  assert (H2 : forall w vocals x w1 r o,
        handle (nn_Module___call__ vocals x) w = (w1, r) ->
        probe_report ok_2 failed_2 r = Some o ->
        run handle spawn (InspectUmx.attempt_2 vocals x) w
        = ([ELib (nn_Module___call__ vocals x) r; EOut o], w1, Ok tt)).
  { clear w. intros w vocals x w1 r o Hc Hr. cbn. rewrite Hc.
    destruct r as [out | e]; cbn in Hr |- *.
    - destruct (getattr out "shape") as [s | e]; cbn.
      + injection Hr as <-. reflexivity.
      + unfold except_Exception. destruct (is_Exception e); [ | discriminate Hr].
        injection Hr as <-. reflexivity.
    - unfold except_Exception. destruct (is_Exception e); [ | discriminate Hr].
      injection Hr as <-. reflexivity. }
  split; [apply H1 | split; [apply H2 | split; [reflexivity | split]]].
  - intros ok failed e He. cbn. rewrite He. reflexivity.
  - intros t0 w0 vocals x1 w1 r1 o1 w2 x2 w3 r2 o2 Hsetup Hc1 Hr1 Hrandn Hc2 Hr2.
    unfold InspectUmx.main.
    rewrite run_python, run_bind, Hsetup. cbn [fst snd].
    rewrite run_bind, (H1 w0 vocals x1 w1 r1 o1 Hc1 Hr1).
    rewrite run_bind. change (2049 * 2) with 4098.
    cbn [run call_]. rewrite Hrandn. cbn [lift run].
    rewrite (H2 w2 vocals x2 w3 r2 o2 Hc2 Hr2). cbn [app]. reflexivity.
Qed.

Lemma probe_reports_and_continues_witness :
  exists t0,
    run (Sample.handle "1.26.4") Sample.spawn (python InspectUmx.main) 0%N
    = ((t0 ++ [ELib (nn_Module___call__ Sample.vocals_net (VTensor [1; 2; 2049; 100]))
                    (Ok (VTensor [100; 1; 2; 2049]));
               EOut (Stdout [Lit ok_1; Str (VSize [100; 1; 2; 2049])]);
               ELib (torch_randn [1; 100; 4098]) (Ok (VTensor [1; 100; 4098]));
               ELib (nn_Module___call__ Sample.vocals_net (VTensor [1; 100; 4098]))
                    (Raise (Exception "RuntimeError" "not enough values to unpack"));
               EOut (Stdout [Lit failed_2;
                             StrExn (Exception "RuntimeError"
                                       "not enough values to unpack")])])%list,
       9%N, Ok 0).
Proof.
  eexists.
  eapply (proj2 (proj2 (proj2 (proj2
            (probe_reports_and_continues N (Sample.handle "1.26.4") Sample.spawn 0%N))))).
  - vm_compute. reflexivity.
  - reflexivity.
  - reflexivity.
  - reflexivity.
  - reflexivity.
  - reflexivity.
Defined.

(** C2. In colab_openunmix.py the example input has shape (1, 2, 441000),
    10 seconds at 44100 Hz.  Whatever the libraries answer, every example
    tensor the script creates has that shape and every conversion it
    requests declares exactly one input, named "audio", with the fixed
    shape (1, 2, 441000); a run that completes has converted the graph
    traced on that example with this declaration and saved the package. *)
Theorem colab_declares_audio_441000 :
  forall (W : Type) (handle : call -> W -> W * result value)
         (spawn : list string -> W -> W * Z) (sys_executable : string) (w : W),
    let p := ColabOpenunmix.main sys_executable in
    441000 = 44100 * 10 /\
    Forall (lib_event (example_of [1; 2; 441000])) (trace handle spawn p w) /\
    Forall (lib_event (declares
              [{| name := "audio"; shape := [Fixed 1; Fixed 2; Fixed 441000] |}]))
      (trace handle spawn p w) /\
    (outcome handle spawn p w = Ok tt ->
     exists model example traced mlmodel saved,
       In (ELib (torch_randn [1; 2; 441000]) (Ok example)) (trace handle spawn p w) /\
       In (ELib (jit_trace model example true) (Ok traced)) (trace handle spawn p w) /\
       In (ELib (ct_convert traced
                   [{| name := "audio"; shape := [Fixed 1; Fixed 2; Fixed 441000] |}]
                   "mlprogram" FLOAT16 macOS13) (Ok mlmodel))
          (trace handle spawn p w) /\
       In (ELib (MLModel_save mlmodel "OpenUnmix.mlpackage") (Ok saved))
          (trace handle spawn p w)).
Proof.
  intros W handle spawn sys_executable w p.
  pose proof (export_every_call (ColabWaveform sys_executable)) as Hall.
  split; [reflexivity | split; [ | split]].
  - apply every_call_run. eapply every_call_weaken; [ | exact Hall].
    cbn. tauto.
  - apply every_call_run. eapply every_call_weaken; [ | exact Hall].
    cbn. tauto.
  - apply (export_completed handle spawn (ColabWaveform sys_executable) w).
Qed.

Lemma colab_declares_audio_441000_witness :
  let p := ColabOpenunmix.main "/usr/bin/python3" in
  let tr := trace (Sample.handle "1.26.4") Sample.spawn p 0%N in
  outcome (Sample.handle "1.26.4") Sample.spawn p 0%N = Ok tt /\
  exists model example traced mlmodel saved,
    In (ELib (torch_randn [1; 2; 441000]) (Ok example)) tr /\
    In (ELib (jit_trace model example true) (Ok traced)) tr /\
    In (ELib (ct_convert traced
                [{| name := "audio"; shape := [Fixed 1; Fixed 2; Fixed 441000] |}]
                "mlprogram" FLOAT16 macOS13) (Ok mlmodel)) tr /\
    In (ELib (MLModel_save mlmodel "OpenUnmix.mlpackage") (Ok saved)) tr.
Proof.
  split; [vm_compute; reflexivity | ].
  apply (proj2 (proj2 (proj2
           (colab_declares_audio_441000 N (Sample.handle "1.26.4") Sample.spawn
              "/usr/bin/python3" 0%N)))).
  vm_compute. reflexivity.
Defined.

(** C10. scripts/convert_openunmix.py creates its example with shape
    (1, 2, 132300), 3 seconds at 44100 Hz, and every conversion it requests
    declares exactly one input, "audio", with that fixed shape; the
    declaration differs from the Colab variant's (1, 2, 441000), which that
    script declares in every conversion it requests.  A run that completes
    has converted with the 132300 declaration and saved the package. *)
Theorem standalone_declares_audio_132300 :
  forall (W : Type) (handle : call -> W -> W * result value)
         (spawn : list string -> W -> W * Z) (w : W),
    let p := ConvertOpenunmix.main in
    132300 = 44100 * 3 /\
    audio_input 132300 <> audio_input 441000 /\
    Forall (lib_event (example_of [1; 2; 132300])) (trace handle spawn p w) /\
    Forall (lib_event (declares
              [{| name := "audio"; shape := [Fixed 1; Fixed 2; Fixed 132300] |}]))
      (trace handle spawn p w) /\
    (forall sys_executable,
        Forall (lib_event (declares [audio_input 441000]))
          (trace handle spawn (ColabOpenunmix.main sys_executable) w)) /\
    (outcome handle spawn p w = Ok tt ->
     exists model example traced mlmodel saved,
       In (ELib (torch_randn [1; 2; 132300]) (Ok example)) (trace handle spawn p w) /\
       In (ELib (jit_trace model example false) (Ok traced)) (trace handle spawn p w) /\
       In (ELib (ct_convert traced
                   [{| name := "audio"; shape := [Fixed 1; Fixed 2; Fixed 132300] |}]
                   "mlprogram" FLOAT16 macOS13) (Ok mlmodel))
          (trace handle spawn p w) /\
       In (ELib (MLModel_save mlmodel "OpenUnmix.mlpackage") (Ok saved))
          (trace handle spawn p w)).
Proof.
  intros W handle spawn w p.
  pose proof (export_every_call StandaloneWaveform) as Hall.
  split; [reflexivity | split; [discriminate | split; [ | split; [ | split]]]].
  - apply every_call_run. eapply every_call_weaken; [ | exact Hall].
    cbn. tauto.
  - apply every_call_run. eapply every_call_weaken; [ | exact Hall].
    cbn. tauto.
  - intro sys_executable. apply every_call_run.
    eapply every_call_weaken; [ | exact (export_every_call (ColabWaveform sys_executable))].
    cbn. tauto.
  - apply (export_completed handle spawn StandaloneWaveform w).
Qed.

Lemma standalone_declares_audio_132300_witness :
  let tr := trace (Sample.handle "1.26.4") Sample.spawn ConvertOpenunmix.main 0%N in
  exists model example traced mlmodel saved,
    In (ELib (torch_randn [1; 2; 132300]) (Ok example)) tr /\
    In (ELib (jit_trace model example false) (Ok traced)) tr /\
    In (ELib (ct_convert traced
                [{| name := "audio"; shape := [Fixed 1; Fixed 2; Fixed 132300] |}]
                "mlprogram" FLOAT16 macOS13) (Ok mlmodel)) tr /\
    In (ELib (MLModel_save mlmodel "OpenUnmix.mlpackage") (Ok saved)) tr.
Proof.
  apply (proj2 (proj2 (proj2 (proj2 (proj2
           (standalone_declares_audio_132300 N (Sample.handle "1.26.4")
              Sample.spawn 0%N)))))).
  vm_compute. reflexivity.
Defined.

(** C1. scripts/convert_openunmix_spectral.py: every conversion the script
    requests declares exactly one input, named "magnitude_spectrogram", of
    shape (1, 2, 2049, T) in which batch, channel and frequency axes are
    fixed and T is a range with lower bound 10, upper bound 5000 and
    default 100; a run that completes has converted the traced vocals model
    with this declaration and saved the package. *)
Theorem spectral_declares_flexible_time_axis :
  forall (W : Type) (handle : call -> W -> W * result value)
         (spawn : list string -> W -> W * Z) (w : W),
    let p := ConvertOpenunmixSpectral.main in
    let magnitude_spectrogram :=
      {| name := "magnitude_spectrogram";
         shape := [Fixed 1; Fixed 2; Fixed 2049;
                   RangeDim 10 5000 100] |} in
    Forall (lib_event (declares [magnitude_spectrogram])) (trace handle spawn p w) /\
    (outcome handle spawn p w = Ok tt ->
     exists model example traced mlmodel saved,
       In (ELib (torch_randn [1; 2; 2049; 100]) (Ok example)) (trace handle spawn p w) /\
       In (ELib (jit_trace model example true) (Ok traced)) (trace handle spawn p w) /\
       In (ELib (ct_convert traced [magnitude_spectrogram]
                   "mlprogram" FLOAT16 macOS13) (Ok mlmodel))
          (trace handle spawn p w) /\
       In (ELib (MLModel_save mlmodel "OpenUnmixSpectrogram.mlpackage") (Ok saved))
          (trace handle spawn p w)).
Proof.
  intros W handle spawn w p magnitude_spectrogram.
  pose proof (export_every_call SpectralVocals) as Hall.
  split.
  - apply every_call_run. eapply every_call_weaken; [ | exact Hall].
    cbn. tauto.
  - apply (export_completed handle spawn SpectralVocals w).
Qed.

Lemma spectral_declares_flexible_time_axis_witness :
  let tr := trace (Sample.handle "1.26.4") Sample.spawn
              ConvertOpenunmixSpectral.main 0%N in
  exists model example traced mlmodel saved,
    In (ELib (torch_randn [1; 2; 2049; 100]) (Ok example)) tr /\
    In (ELib (jit_trace model example true) (Ok traced)) tr /\
    In (ELib (ct_convert traced
                [{| name := "magnitude_spectrogram";
                    shape := [Fixed 1; Fixed 2; Fixed 2049; RangeDim 10 5000 100] |}]
                "mlprogram" FLOAT16 macOS13) (Ok mlmodel)) tr /\
    In (ELib (MLModel_save mlmodel "OpenUnmixSpectrogram.mlpackage") (Ok saved)) tr.
Proof.
  apply (proj2 (spectral_declares_flexible_time_axis N (Sample.handle "1.26.4")
                  Sample.spawn 0%N)).
  vm_compute. reflexivity.
Defined.

Lemma colab_script_every_call :
  every_call (fun c => half_precision c /\ no_wrapper c)
    (python ColabScript.main).
Proof.
  assert (Hconv : every_call (fun c => half_precision c /\ no_wrapper c)
                    ColabScript.run_conversion).
  { eapply every_call_weaken; [ | exact (export_every_call Demucs)]. cbn. tauto. }
  unfold ColabScript.main, ColabScript.run_runner, subprocess_run.
  every_call_script.
  apply every_call_try_except.
  - every_call_script.
    apply every_call_bash; [ | constructor].
    unfold ColabScript.script.
    repeat (apply Forall_cons; [first [exact I | exact Hconv] | ]).
    apply Forall_nil.
  - intros e h He. destruct e; cbn in He; try discriminate He.
    injection He as <-. every_call_script.
Qed.

(** C6. Each of the four export scripts asks the converter for half
    precision in every conversion it requests, whatever the libraries
    answer; the same holds of the Demucs conversion when it is driven
    through colab_script.py.  A run that completes has produced its package
    by a conversion at half precision and saved it. *)
Theorem every_export_is_half_precision :
  forall (W : Type) (handle : call -> W -> W * result value)
         (spawn : list string -> W -> W * Z) (x : export) (w : W),
    Forall (lib_event half_precision) (trace handle spawn (export_script x) w) /\
    Forall (lib_event half_precision) (trace handle spawn (python ColabScript.main) w) /\
    (outcome handle spawn (export_script x) w = Ok tt ->
     exists traced mlmodel saved,
       In (ELib (ct_convert traced (export_inputs x) "mlprogram" FLOAT16 macOS13)
                (Ok mlmodel))
          (trace handle spawn (export_script x) w) /\
       In (ELib (MLModel_save mlmodel (export_package x)) (Ok saved))
          (trace handle spawn (export_script x) w)).
Proof.
  intros W handle spawn x w. split; [ | split].
  - apply every_call_run.
    eapply every_call_weaken; [ | exact (export_every_call x)]. cbn. tauto.
  - apply every_call_run.
    eapply every_call_weaken; [ | exact colab_script_every_call]. cbn. tauto.
  - intro Hok.
    destruct (export_completed handle spawn x w Hok)
      as (model & example & traced & mlmodel & saved & _ & _ & Hconv & Hsave).
    exists traced, mlmodel, saved. split; assumption.
Qed.

Lemma every_export_is_half_precision_witness :
  let tr := trace (Sample.handle "1.26.4") Sample.spawn (export_script Demucs) 0%N in
  exists traced mlmodel saved,
    In (ELib (ct_convert traced [audio_input 343980] "mlprogram" FLOAT16 macOS13)
             (Ok mlmodel)) tr /\
    In (ELib (MLModel_save mlmodel "Demucs.mlpackage") (Ok saved)) tr.
Proof.
  apply (proj2 (proj2 (every_export_is_half_precision N (Sample.handle "1.26.4")
                         Sample.spawn Demucs 0%N))).
  vm_compute. reflexivity.
Defined.

(** C5, on the code. scripts/convert_openunmix.py disables output validation
    in every trace capture it requests.  colab_openunmix.py traces the same
    separator (umxhq, niter=1, residual) without the keyword, so every
    trace capture it requests has validation enabled, and a run that
    completes has captured its trace that way. *)
Theorem colab_trace_keeps_validation :
  forall (W : Type) (handle : call -> W -> W * result value)
         (spawn : list string -> W -> W * Z) (sys_executable : string) (w : W),
    let colab := ColabOpenunmix.main sys_executable in
    Forall (lib_event (validation false)) (trace handle spawn ConvertOpenunmix.main w) /\
    Forall (lib_event (validation true)) (trace handle spawn colab w) /\
    (outcome handle spawn colab w = Ok tt ->
     exists separator example traced,
       In (ELib (load_separator
                   [("model_str", VStr "umxhq"); ("niter", VInt 1);
                    ("residual", VBool true); ("device", VStr "cpu")])
                (Ok separator)) (trace handle spawn colab w) /\
       In (ELib (jit_trace separator example true) (Ok traced))
          (trace handle spawn colab w)).
Proof.
  intros W handle spawn sys_executable w colab. split; [ | split].
  - apply every_call_run.
    eapply every_call_weaken; [ | exact (export_every_call StandaloneWaveform)].
    cbn. tauto.
  - apply every_call_run.
    eapply every_call_weaken;
      [ | exact (export_every_call (ColabWaveform sys_executable))].
    cbn. tauto.
  - unfold outcome, trace. subst colab.
    destruct (run handle spawn (ColabOpenunmix.main sys_executable) w)
      as [[t w'] r] eqn:Hrun.
    cbn [fst snd]. intros ->.
    run_script Hrun handle spawn. injection Hrun as <- <-.
    do 3 eexists. split; in_trace.
Qed.

Lemma colab_trace_keeps_validation_witness :
  let tr := trace (Sample.handle "1.26.4") Sample.spawn
              (ColabOpenunmix.main "/usr/bin/python3") 0%N in
  exists separator example traced,
    In (ELib (load_separator
                [("model_str", VStr "umxhq"); ("niter", VInt 1);
                 ("residual", VBool true); ("device", VStr "cpu")])
             (Ok separator)) tr /\
    In (ELib (jit_trace separator example true) (Ok traced)) tr.
Proof.
  apply (proj2 (proj2 (colab_trace_keeps_validation N (Sample.handle "1.26.4")
                         Sample.spawn "/usr/bin/python3" 0%N))).
  vm_compute. reflexivity.
Defined.

(** C7. The selection in the Demucs conversion script: a loaded model that
    has a [models] attribute holding a non-empty list yields the first
    element of that list; a loaded model without the attribute yields
    itself.  In every run, the model that is put in evaluation mode and the
    model that is traced are the one selected from what [get_model]
    returned. *)
Theorem bag_selects_first_model :
  forall (W : Type) (handle : call -> W -> W * result value)
         (spawn : list string -> W -> W * Z) (w : W),
    (forall cls id attrs first others,
        lookup "models" attrs = Some (VList (first :: others)) ->
        ColabScript.select_model (VObj cls id attrs) = Ok first) /\
    (forall loaded,
        hasattr loaded "models" = false ->
        ColabScript.select_model loaded = Ok loaded) /\
    (forall c r m,
        In (ELib c r) (trace handle spawn ColabScript.run_conversion w) ->
        uses_model c = Some m ->
        exists bag_model,
          In (ELib (get_model "htdemucs") (Ok bag_model))
             (trace handle spawn ColabScript.run_conversion w) /\
          ColabScript.select_model bag_model = Ok m).
Proof.
  intros W handle spawn w. split; [ | split].
  - intros cls id attrs first others Hl.
    unfold ColabScript.select_model, hasattr. cbn. rewrite Hl. reflexivity.
  - intros loaded Hno. unfold ColabScript.select_model. rewrite Hno. reflexivity.
  - intros c r m. apply demucs_model_is_selected.
Qed.

Lemma bag_selects_first_model_witness :
  ColabScript.select_model Sample.bag = Ok Sample.htdemucs /\
  ColabScript.select_model Sample.htdemucs = Ok Sample.htdemucs /\
  exists bag_model,
    In (ELib (get_model "htdemucs") (Ok bag_model))
       (trace (Sample.handle "1.26.4") Sample.spawn ColabScript.run_conversion 0%N) /\
    ColabScript.select_model bag_model = Ok Sample.htdemucs.
Proof.
  destruct (bag_selects_first_model N (Sample.handle "1.26.4") Sample.spawn 0%N)
    as (Hfirst & Hself & Hused).
  split; [ | split].
  - apply (Hfirst "BagOfModels" 7%N _ Sample.htdemucs [VObj "HTDemucs" 8 []]).
    reflexivity.
  - apply Hself. reflexivity.
  - eapply (Hused (jit_trace Sample.htdemucs (VTensor [1; 2; 343980]) true)).
    + vm_compute. repeat first [left; reflexivity | right].
    + reflexivity.
Defined.

(** C9. In the Demucs conversion script no call constructs a wrapper module
    and no call runs segmented inference, also when the script is driven
    through colab_script.py; what is traced is the model selected from what
    [get_model] returned, and a run that completes has converted the trace
    of that model.  The wrapper class the script defines would make itself
    known: constructing it starts with the module constructor, and its
    forward pass is [apply_model] with shifts=0, split=True, overlap=0.25. *)
Theorem demucs_traces_bare_model :
  forall (W : Type) (handle : call -> W -> W * result value)
         (spawn : list string -> W -> W * Z) (w : W),
    let p := ColabScript.run_conversion in
    Forall (lib_event no_wrapper) (trace handle spawn p w) /\
    Forall (lib_event no_wrapper) (trace handle spawn (python ColabScript.main) w) /\
    (forall func example check_trace r,
        In (ELib (jit_trace func example check_trace) r) (trace handle spawn p w) ->
        exists bag_model,
          In (ELib (get_model "htdemucs") (Ok bag_model)) (trace handle spawn p w) /\
          ColabScript.select_model bag_model = Ok func) /\
    (outcome handle spawn p w = Ok tt ->
     exists bag_model model example traced mlmodel,
       ColabScript.select_model bag_model = Ok model /\
       In (ELib (get_model "htdemucs") (Ok bag_model)) (trace handle spawn p w) /\
       In (ELib (jit_trace model example true) (Ok traced)) (trace handle spawn p w) /\
       In (ELib (ct_convert traced [audio_input 343980] "mlprogram" FLOAT16 macOS13)
                (Ok mlmodel)) (trace handle spawn p w)) /\
    (forall id model,
        exists r rest,
          trace handle spawn (ColabScript.DemucsWrapper___init__ id model) w
          = ELib (nn_Module___init__ "DemucsWrapper") r :: rest) /\
    (forall id model x,
        exists r,
          trace handle spawn
            (ColabScript.DemucsWrapper_forward
               (VObj "DemucsWrapper" id [("model", model)]) x) w
          = [ELib (apply_model model x 0 true (1 # 4) false) r]).
Proof.
  intros W handle spawn w p. subst p.
  split; [ | split; [ | split; [ | split; [ | split]]]].
  - apply every_call_run.
    eapply every_call_weaken; [ | exact (export_every_call Demucs)]. cbn. tauto.
  - apply every_call_run.
    eapply every_call_weaken; [ | exact colab_script_every_call]. cbn. tauto.
  - intros func example check_trace r Hin.
    apply (demucs_model_is_selected handle spawn w _ r func Hin). reflexivity.
  - unfold outcome, trace.
    destruct (run handle spawn ColabScript.run_conversion w) as [[t w'] r] eqn:Hrun.
    cbn [fst snd]. intros ->.
    run_script Hrun handle spawn. injection Hrun as <- <-.
    do 5 eexists. split; [eassumption | ]. repeat split; in_trace.
  - intros id model. unfold trace. cbn.
    destruct (handle (nn_Module___init__ "DemucsWrapper") w) as [w1 r].
    destruct (run handle spawn _ w1) as [[t w'] r']. cbn. eauto.
  - intros id model x. unfold trace. cbn.
    destruct (handle (apply_model model x 0 true (1 # 4) false) w) as [w1 [v | e]];
      cbn; eauto.
Qed.

Lemma demucs_traces_bare_model_witness :
  let tr := trace (Sample.handle "1.26.4") Sample.spawn ColabScript.run_conversion 0%N in
  (exists bag_model,
     In (ELib (get_model "htdemucs") (Ok bag_model)) tr /\
     ColabScript.select_model bag_model = Ok Sample.htdemucs) /\
  exists bag_model model example traced mlmodel,
    ColabScript.select_model bag_model = Ok model /\
    In (ELib (get_model "htdemucs") (Ok bag_model)) tr /\
    In (ELib (jit_trace model example true) (Ok traced)) tr /\
    In (ELib (ct_convert traced [audio_input 343980] "mlprogram" FLOAT16 macOS13)
             (Ok mlmodel)) tr.
Proof.
  destruct (demucs_traces_bare_model N (Sample.handle "1.26.4") Sample.spawn 0%N)
    as (_ & _ & Htraced & Hdone & _ & _).
  split.
  - eapply (Htraced Sample.htdemucs (VTensor [1; 2; 343980]) true).
    vm_compute. repeat first [left; reflexivity | right].
  - apply Hdone. vm_compute. reflexivity.
Defined.

Lemma numpy_2_prefix_rejected_witness :
  let p := python ColabScript.run_conversion in
  outcome (Sample.handle "2.0.1") Sample.spawn p 0%N = Ok 1 /\
  last (trace (Sample.handle "2.0.1") Sample.spawn p 0%N) (EOut (Stdout []))
  = numpy_2_diagnostic /\
  Forall (lib_event before_model_work) (trace (Sample.handle "2.0.1") Sample.spawn p 0%N).
Proof.
  apply (proj1 (numpy_2_prefix_rejected N (Sample.handle "2.0.1") Sample.spawn 0%N
                  "2.0.1" ltac:(vm_compute; tauto))).
  reflexivity.
Defined.

(** ** Further properties of the scripts *)

Ltac clear_answers :=
  repeat match goal with
         | H : _ = (_, _) |- _ => clear H
         end.

Ltac in_list := cbv [In]; repeat first [left; reflexivity | right].

Ltac in_split H :=
  cbv [In] in H;
  repeat (destruct H as [H | H]; [try discriminate H | ]);
  try contradiction H.

Ltac precedes_trace :=
  repeat first [apply precedes_here; solve [in_list] | apply precedes_later].

(** How the steps of an export depend on one another, read off one walk
    through each script. *)
Lemma export_run_facts {W : Type} (handle : call -> W -> W * result value)
    (spawn : list string -> W -> W * Z) (x : export) (w : W) :
  (forall mlmodel path r,
      In (ELib (MLModel_save mlmodel path) r) (trace handle spawn (export_script x) w) ->
      path = export_package x /\
      exists traced,
        precedes
          (ELib (ct_convert traced (export_inputs x) "mlprogram" FLOAT16 macOS13)
                (Ok mlmodel))
          (ELib (MLModel_save mlmodel path) r)
          (trace handle spawn (export_script x) w)) /\
  (forall traced inputs convert_to compute_precision minimum_deployment_target r,
      In (ELib (ct_convert traced inputs convert_to compute_precision
                  minimum_deployment_target) r)
         (trace handle spawn (export_script x) w) ->
      exists model example,
        In (ELib (torch_randn (export_example x)) (Ok example))
           (trace handle spawn (export_script x) w) /\
        precedes
          (ELib (jit_trace model example (export_validation x)) (Ok traced))
          (ELib (ct_convert traced inputs convert_to compute_precision
                   minimum_deployment_target) r)
          (trace handle spawn (export_script x) w)) /\
  (forall model example check_trace r,
      In (ELib (jit_trace model example check_trace) r)
         (trace handle spawn (export_script x) w) ->
      exists r0,
        precedes (ELib (nn_Module_eval model) (Ok r0))
                 (ELib (jit_trace model example check_trace) r)
                 (trace handle spawn (export_script x) w)) /\
  (forall base_name format root_dir r,
      In (ELib (shutil_make_archive base_name format root_dir) r)
         (trace handle spawn (export_script x) w) ->
      export_archive x = Some base_name /\
      format = "zip" /\
      root_dir = export_package x /\
      root_dir = base_name ++ ".mlpackage" /\
      exists mlmodel r0,
        precedes (ELib (MLModel_save mlmodel root_dir) (Ok r0))
                 (ELib (shutil_make_archive base_name format root_dir) r)
                 (trace handle spawn (export_script x) w)) /\
  (forall mlmodel path r description,
      In (ELib (MLModel_save mlmodel path) r)
         (trace handle spawn (export_script x) w) ->
      export_description x = Some description ->
      exists r1 r2,
        precedes (ELib (setattr mlmodel "author" (VStr "Sangeet AI")) (Ok r1))
                 (ELib (setattr mlmodel "short_description" (VStr description))
                       (Ok r2))
                 (trace handle spawn (export_script x) w) /\
        precedes (ELib (setattr mlmodel "short_description" (VStr description))
                       (Ok r2))
                 (ELib (MLModel_save mlmodel path) r)
                 (trace handle spawn (export_script x) w)) /\
  (In (EOut (Stdout (export_last_line x))) (trace handle spawn (export_script x) w)
   <-> outcome handle spawn (export_script x) w = Ok tt).
Proof.
  unfold trace, outcome.
  destruct (run handle spawn (export_script x) w) as [[t w'] r'] eqn:Hrun.
  cbn [fst snd].
  destruct x;
    cbn [export_script export_inputs export_package export_example
         export_validation export_archive export_description export_last_line];
    run_script Hrun handle spawn; injection Hrun as <- <- <-; clear_answers;
    ((split; [ | split; [ | split; [ | split; [ | split]]]]);
    [ intros mlmodel path r Hin; in_split Hin; injection Hin as <- <- <-;
      (split; [reflexivity | eexists; precedes_trace])
    | intros traced inputs convert_to compute_precision minimum_deployment_target r Hin;
      in_split Hin; injection Hin as <- <- <- <- <- <-;
      (do 2 eexists; split; [in_list | precedes_trace])
    | intros model example check_trace r Hin; in_split Hin;
      injection Hin as <- <- <- <-; (eexists; precedes_trace)
    | intros base_name format root_dir r Hin; in_split Hin;
      injection Hin as <- <- <- <-;
      (repeat (split; [reflexivity | ]); do 2 eexists; precedes_trace)
    | intros mlmodel path r description Hin Hdesc;
      first [discriminate Hdesc | injection Hdesc as <-];
      in_split Hin; injection Hin as <- <- <-;
      (do 2 eexists; split; precedes_trace)
    | split; [intro Hin; in_split Hin; reflexivity
             | intro Hok; try discriminate Hok; in_list] ]).
Qed.

(** X1. colab_openunmix.py: when pip ends with a non-zero status the script
    stops there.  Nothing but the installation and the two imports before
    it has happened, the interpreter prints the traceback of the
    CalledProcessError last and exits with status 1. *)
Theorem pip_failure_stops_colab_export :
  forall (W : Type) (handle : call -> W -> W * result value)
         (spawn : list string -> W -> W * Z) (sys_executable : string) (w : W)
         (argv : list string) (retcode : value),
    let p := python (ColabOpenunmix.main sys_executable) in
    In (ELib (subprocess_call argv) (Ok retcode)) (trace handle spawn p w) ->
    truthy retcode = true ->
    outcome handle spawn p w = Ok 1 /\
    last (trace handle spawn p w) (EOut (Stdout []))
    = EOut (Traceback (CalledProcessError retcode)) /\
    Forall (lib_event install_or_import) (trace handle spawn p w).
Proof.
  intros W handle spawn sys_executable w argv retcode p. unfold trace, outcome. subst p.
  destruct (run handle spawn (python (ColabOpenunmix.main sys_executable)) w)
    as [[t w'] r] eqn:Hrun.
  cbn [fst snd]. intros Hin Htruthy.
  run_script Hrun handle spawn.
  all: injection Hrun as <- <- <-.
  all: in_split Hin.
  all: injection Hin as <- <-.
  all: try congruence.
  repeat split; repeat constructor.
Qed.

Lemma pip_failure_stops_colab_export_witness :
  let p := python (ColabOpenunmix.main "/usr/bin/python3") in
  outcome Faulty.pip_fails Sample.spawn p 0%N = Ok 1 /\
  last (trace Faulty.pip_fails Sample.spawn p 0%N) (EOut (Stdout []))
  = EOut (Traceback (CalledProcessError (VInt 1))) /\
  Forall (lib_event install_or_import) (trace Faulty.pip_fails Sample.spawn p 0%N).
Proof.
  eapply (pip_failure_stops_colab_export N Faulty.pip_fails Sample.spawn
            "/usr/bin/python3" 0%N).
  - vm_compute. repeat first [left; reflexivity | right].
  - reflexivity.
Defined.

(** X2. In each export script, whatever is saved is the model a successful
    conversion returned earlier in the same run, converted with the
    script's declaration, and it is saved under the script's fixed package
    path. *)
Theorem saved_model_is_converted_model :
  forall (W : Type) (handle : call -> W -> W * result value)
         (spawn : list string -> W -> W * Z) (x : export) (w : W)
         (mlmodel : value) (path : string) (r : result value),
    In (ELib (MLModel_save mlmodel path) r) (trace handle spawn (export_script x) w) ->
    path = export_package x /\
    exists traced,
      precedes
        (ELib (ct_convert traced (export_inputs x) "mlprogram" FLOAT16 macOS13)
              (Ok mlmodel))
        (ELib (MLModel_save mlmodel path) r)
        (trace handle spawn (export_script x) w).
Proof.
  intros W handle spawn x w mlmodel path r.
  apply (proj1 (export_run_facts handle spawn x w)).
Qed.

Lemma saved_model_is_converted_model_witness :
  exists traced,
    precedes
      (ELib (ct_convert traced [spectrogram_input] "mlprogram" FLOAT16 macOS13)
            (Ok (VObj "MLModel" 9 [])))
      (ELib (MLModel_save (VObj "MLModel" 9 []) "OpenUnmixSpectrogram.mlpackage")
            (Ok VNone))
      (trace (Sample.handle "1.26.4") Sample.spawn
         (export_script SpectralVocals) 0%N).
Proof.
  apply (saved_model_is_converted_model N (Sample.handle "1.26.4") Sample.spawn
           SpectralVocals 0%N (VObj "MLModel" 9 []) "OpenUnmixSpectrogram.mlpackage"
           (Ok VNone)).
  vm_compute. repeat first [left; reflexivity | right].
Defined.

(** X3. In each export script, whatever is converted is the graph a
    successful trace capture returned earlier in the same run, and that
    capture was fed the example tensor of the script's example shape. *)
Theorem converted_graph_is_traced_on_example :
  forall (W : Type) (handle : call -> W -> W * result value)
         (spawn : list string -> W -> W * Z) (x : export) (w : W)
         (traced : value) (inputs : list TensorType) (convert_to : string)
         (compute_precision : precision) (minimum_deployment_target : target)
         (r : result value),
    In (ELib (ct_convert traced inputs convert_to compute_precision
                minimum_deployment_target) r)
       (trace handle spawn (export_script x) w) ->
    exists model example,
      In (ELib (torch_randn (export_example x)) (Ok example))
         (trace handle spawn (export_script x) w) /\
      precedes
        (ELib (jit_trace model example (export_validation x)) (Ok traced))
        (ELib (ct_convert traced inputs convert_to compute_precision
                 minimum_deployment_target) r)
        (trace handle spawn (export_script x) w).
Proof.
  intros W handle spawn x w traced inputs convert_to compute_precision
    minimum_deployment_target r.
  apply (proj1 (proj2 (export_run_facts handle spawn x w))).
Qed.

Lemma converted_graph_is_traced_on_example_witness :
  exists model example,
    In (ELib (torch_randn [1; 2; 132300]) (Ok example))
       (trace (Sample.handle "1.26.4") Sample.spawn
          (export_script StandaloneWaveform) 0%N) /\
    precedes
      (ELib (jit_trace model example false) (Ok (VObj "TopLevelTracedModule" 8 [])))
      (ELib (ct_convert (VObj "TopLevelTracedModule" 8 []) [audio_input 132300]
               "mlprogram" FLOAT16 macOS13) (Ok (VObj "MLModel" 9 [])))
      (trace (Sample.handle "1.26.4") Sample.spawn
         (export_script StandaloneWaveform) 0%N).
Proof.
  apply (converted_graph_is_traced_on_example N (Sample.handle "1.26.4") Sample.spawn
           StandaloneWaveform 0%N).
  vm_compute. repeat first [left; reflexivity | right].
Defined.

(** X4. In each export script, a model is traced only after it has been
    put in evaluation mode successfully. *)
Theorem traced_model_is_in_eval_mode :
  forall (W : Type) (handle : call -> W -> W * result value)
         (spawn : list string -> W -> W * Z) (x : export) (w : W)
         (model example : value) (check_trace : bool) (r : result value),
    In (ELib (jit_trace model example check_trace) r)
       (trace handle spawn (export_script x) w) ->
    exists r0,
      precedes (ELib (nn_Module_eval model) (Ok r0))
               (ELib (jit_trace model example check_trace) r)
               (trace handle spawn (export_script x) w).
Proof.
  intros W handle spawn x w model example check_trace r.
  apply (proj1 (proj2 (proj2 (export_run_facts handle spawn x w)))).
Qed.

Lemma traced_model_is_in_eval_mode_witness :
  exists r0,
    precedes (ELib (nn_Module_eval Sample.htdemucs) (Ok r0))
             (ELib (jit_trace Sample.htdemucs (VTensor [1; 2; 343980]) true)
                   (Ok (VObj "TopLevelTracedModule" 12 [])))
             (trace (Sample.handle "1.26.4") Sample.spawn (export_script Demucs) 0%N).
Proof.
  apply (traced_model_is_in_eval_mode N (Sample.handle "1.26.4") Sample.spawn
           Demucs 0%N).
  vm_compute. repeat first [left; reflexivity | right].
Defined.

(** X5. An export makes an archive only after it has saved its package
    successfully; the archive is a zip of exactly the saved package
    directory, named after it.  scripts/convert_openunmix.py makes no
    archive in any run. *)
Theorem archive_follows_save :
  forall (W : Type) (handle : call -> W -> W * result value)
         (spawn : list string -> W -> W * Z) (x : export) (w : W),
    (forall base_name format root_dir r,
        In (ELib (shutil_make_archive base_name format root_dir) r)
           (trace handle spawn (export_script x) w) ->
        export_archive x = Some base_name /\
        format = "zip" /\
        root_dir = export_package x /\
        root_dir = base_name ++ ".mlpackage" /\
        exists mlmodel r0,
          precedes (ELib (MLModel_save mlmodel root_dir) (Ok r0))
                   (ELib (shutil_make_archive base_name format root_dir) r)
                   (trace handle spawn (export_script x) w)) /\
    Forall (lib_event no_archive) (trace handle spawn ConvertOpenunmix.main w).
Proof.
  intros W handle spawn x w. split.
  - apply (proj1 (proj2 (proj2 (proj2 (export_run_facts handle spawn x w))))).
  - apply every_call_run.
    unfold ConvertOpenunmix.main, ConvertOpenunmix.convert_openunmix.
    every_call_script.
Qed.

Lemma archive_follows_save_witness :
  exists mlmodel r0,
    precedes (ELib (MLModel_save mlmodel "Demucs.mlpackage") (Ok r0))
             (ELib (shutil_make_archive "Demucs" "zip" "Demucs.mlpackage")
                   (Ok (VStr "Demucs.zip")))
             (trace (Sample.handle "1.26.4") Sample.spawn (export_script Demucs) 0%N).
Proof.
  apply (proj1 (archive_follows_save N (Sample.handle "1.26.4") Sample.spawn
                  Demucs 0%N) "Demucs" "zip" "Demucs.mlpackage" (Ok (VStr "Demucs.zip"))).
  vm_compute. repeat first [left; reflexivity | right].
Defined.

(** X6. The three OpenUnmix exports save a model only after they have set
    its author to "Sangeet AI" and its short description to the script's
    text, both successfully; the Demucs conversion attaches no metadata in
    any run. *)
Theorem metadata_set_before_save :
  forall (W : Type) (handle : call -> W -> W * result value)
         (spawn : list string -> W -> W * Z) (x : export) (w : W),
    (forall mlmodel path r description,
        In (ELib (MLModel_save mlmodel path) r)
           (trace handle spawn (export_script x) w) ->
        export_description x = Some description ->
        exists r1 r2,
          precedes (ELib (setattr mlmodel "author" (VStr "Sangeet AI")) (Ok r1))
                   (ELib (setattr mlmodel "short_description" (VStr description))
                         (Ok r2))
                   (trace handle spawn (export_script x) w) /\
          precedes (ELib (setattr mlmodel "short_description" (VStr description))
                         (Ok r2))
                   (ELib (MLModel_save mlmodel path) r)
                   (trace handle spawn (export_script x) w)) /\
    Forall (lib_event no_setattr) (trace handle spawn ColabScript.run_conversion w).
Proof.
  intros W handle spawn x w. split.
  - apply (proj1 (proj2 (proj2 (proj2 (proj2 (export_run_facts handle spawn x w)))))).
  - apply every_call_run. unfold ColabScript.run_conversion. every_call_script.
Qed.

Lemma metadata_set_before_save_witness :
  exists r1 r2,
    precedes (ELib (setattr (VObj "MLModel" 9 []) "author" (VStr "Sangeet AI")) (Ok r1))
             (ELib (setattr (VObj "MLModel" 9 []) "short_description"
                      (VStr "OpenUnmix (UMXHQ)")) (Ok r2))
             (trace (Sample.handle "1.26.4") Sample.spawn
                (export_script StandaloneWaveform) 0%N) /\
    precedes (ELib (setattr (VObj "MLModel" 9 []) "short_description"
                      (VStr "OpenUnmix (UMXHQ)")) (Ok r2))
             (ELib (MLModel_save (VObj "MLModel" 9 []) "OpenUnmix.mlpackage") (Ok VNone))
             (trace (Sample.handle "1.26.4") Sample.spawn
                (export_script StandaloneWaveform) 0%N).
Proof.
  apply (proj1 (metadata_set_before_save N (Sample.handle "1.26.4") Sample.spawn
                  StandaloneWaveform 0%N)
           (VObj "MLModel" 9 []) "OpenUnmix.mlpackage" (Ok VNone) "OpenUnmix (UMXHQ)").
  - vm_compute. repeat first [left; reflexivity | right].
  - reflexivity.
Defined.

(** X7. Every conversion any of the four export scripts requests asks for
    the ML-program format with macOS 13 as minimum deployment target. *)
Theorem every_conversion_targets_mlprogram_macOS13 :
  forall (W : Type) (handle : call -> W -> W * result value)
         (spawn : list string -> W -> W * Z) (x : export) (w : W),
    Forall (lib_event mlprogram_macOS13) (trace handle spawn (export_script x) w).
Proof.
  intros W handle spawn x w. apply every_call_run.
  destruct x; cbn [export_script];
    unfold ColabOpenunmix.main, ColabOpenunmix.convert_openunmix,
      ConvertOpenunmix.main, ConvertOpenunmix.convert_openunmix,
      ConvertOpenunmixSpectral.main, ConvertOpenunmixSpectral.convert_spectral,
      ColabScript.run_conversion, subprocess_check_call;
    every_call_script.
Qed.

(** X14. An export prints its closing line exactly in the runs that reach
    the end of the script: the line is in the output if and only if no
    step raised. *)
Theorem closing_line_iff_completed :
  forall (W : Type) (handle : call -> W -> W * result value)
         (spawn : list string -> W -> W * Z) (x : export) (w : W),
    In (EOut (Stdout (export_last_line x))) (trace handle spawn (export_script x) w)
    <-> outcome handle spawn (export_script x) w = Ok tt.
Proof.
  intros W handle spawn x w.
  apply (proj2 (proj2 (proj2 (proj2 (proj2 (export_run_facts handle spawn x w)))))).
Qed.

Lemma no_proc_bind {A B : Type} (p : prog A) (f : A -> prog B) :
  no_proc p -> (forall a, no_proc (f a)) -> no_proc (bind p f).
Proof. intros Hp Hf. induction Hp; cbn; try constructor; auto. Qed.

Lemma no_proc_call_ (c : call) : no_proc (call_ c).
Proof. constructor. intros [v | e]; constructor. Qed.

Lemma no_proc_lift {A : Type} (r : result A) : no_proc (lift r).
Proof. destruct r; constructor. Qed.

Lemma no_proc_python (p : prog unit) : no_proc p -> no_proc (python p).
Proof.
  intro Hp. induction Hp; cbn; try constructor; auto.
  destruct e; repeat constructor.
Qed.

Lemma no_proc_run {W A : Type} (handle : call -> W -> W * result value)
    (spawn : list string -> W -> W * Z) (p : prog A) :
  no_proc p -> forall w, Forall not_command (trace handle spawn p w).
Proof.
  unfold trace. induction 1 as [a | e | o k Hk IH | c k Hk IH]; intro w; cbn.
  - constructor.
  - constructor.
  - specialize (IH w). destruct (run handle spawn k w) as [[t w'] r].
    constructor; [exact I | exact IH].
  - destruct (handle c w) as [w1 a]. specialize (IH a w1).
    destruct (run handle spawn (k a) w1) as [[t w'] r].
    constructor; [exact I | exact IH].
Qed.

Ltac no_proc_script :=
  repeat lazymatch goal with
  | |- no_proc (bind _ _) => apply no_proc_bind; [ | intros ]
  | |- no_proc (call_ _) => apply no_proc_call_
  | |- no_proc (torch_jit_trace _ _ _) => apply no_proc_call_
  | |- no_proc (lift _) => apply no_proc_lift
  | |- no_proc (print _) => repeat constructor
  | |- no_proc (Ret _) => constructor
  | |- no_proc (Throw _) => constructor
  | |- no_proc (sys_exit _) => constructor
  | |- no_proc (if ?b then _ else _) => destruct b
  | |- no_proc (let x := _ in _) => cbv zeta
  | |- no_proc (python _) => apply no_proc_python
  end.

Lemma run_conversion_no_proc : no_proc ColabScript.run_conversion.
Proof. unfold ColabScript.run_conversion. no_proc_script. Qed.

(** One shell command of the runner, the conversion script left folded. *)
Ltac shell_step H spawn :=
  cbn -[ColabScript.run_conversion python] in H;
  lazymatch type of H with
  | context [spawn ?a ?w] =>
      let E := fresh "E" in destruct (spawn a w) as [? ?] eqn:E; clear E
  | context [if negb (?z =? 0) then _ else _] =>
      let E := fresh "E" in destruct (Z.eqb_spec z 0) as [E | E]; [subst z | ]
  end;
  cbn -[ColabScript.run_conversion python] in H.

(** X8. The shell script of colab_script.py.  The conversion script makes a
    library call only after every provisioning command, the three pip
    installations among them, has ended with status 0.  A command that ends
    with a non-zero status is the last thing the shell does, and the
    shell ends with that status. *)
Theorem conversion_runs_only_when_provisioned :
  forall (W : Type) (handle : call -> W -> W * result value)
         (spawn : list string -> W -> W * Z) (w w' : W) (t : list event) (rc : Z),
    run handle spawn (bash ColabScript.script false [] 0) w = (t, w', Ok rc) ->
    (forall c r,
        In (ELib c r) t ->
        Forall command_ok t /\
        In (EProc ["pip"; "install"; "numpy<2"] 0) t /\
        In (EProc ["pip"; "install"; "torch==2.4.0"; "torchaudio==2.4.0";
                   "--index-url"; "https://download.pytorch.org/whl/cpu"] 0) t /\
        In (EProc ["pip"; "install"; "demucs"; "coremltools"] 0) t) /\
    (forall argv status,
        In (EProc argv status) t -> status <> 0 ->
        rc = status /\ last t (EOut (Stdout [])) = EProc argv status).
Proof.
  intros W handle spawn w w' t rc Hrun.
  repeat shell_step Hrun spawn.
  (* the commands that failed *)
  all: try (injection Hrun as <- <- <-;
            split;
            [ intros c r Hin; in_split Hin
            | intros argv status Hin Hnz; in_split Hin; injection Hin as <- <-;
              first [exfalso; apply Hnz; reflexivity | split; reflexivity] ]).
  (* all commands succeeded and the conversion script ran *)
  rewrite run_bind in Hrun.
  match type of Hrun with
  | context [run handle spawn (python ColabScript.run_conversion) ?w1] =>
      pose proof (no_proc_run handle spawn _
                    (no_proc_python _ run_conversion_no_proc) w1) as Hquiet;
      unfold trace in Hquiet;
      destruct (python_never_raises handle spawn ColabScript.run_conversion w1)
        as (t1 & w1' & rc1 & Hpy);
      rewrite Hpy in Hrun, Hquiet
  end.
  cbn in Hrun, Hquiet.
  assert (Hend : t = (EOut (Stdout [Lit "🚀 Setting up isolated environment..."])
                      :: EProc ["python3"; "--version"] 0
                      :: EProc ["python3"; "-m"; "venv"; "venv"] 0
                      :: EProc ["source"; "venv/bin/activate"] 0
                      :: EOut (Stdout [Lit "📦 Installing clean dependencies..."])
                      :: EProc ["pip"; "install"; "--upgrade"; "pip"] 0
                      :: EProc ["pip"; "install"; "numpy<2"] 0
                      :: EProc ["pip"; "install"; "torch==2.4.0"; "torchaudio==2.4.0";
                                "--index-url"; "https://download.pytorch.org/whl/cpu"] 0
                      :: EProc ["pip"; "install"; "demucs"; "coremltools"] 0
                      :: EOut (Stdout [Lit "✅ Environment Ready."])
                      :: EProc ["cat"; ">"; "run_conversion.py"] 0
                      :: EOut (Stdout [Lit "🏃 Running conversion script..."])
                      :: t1)%list).
  { destruct (negb (rc1 =? 0)); cbn in Hrun; injection Hrun as <- _ _;
      rewrite app_nil_r; reflexivity. }
  clear Hrun. subst t.
  assert (Hok : Forall command_ok t1).
  { eapply Forall_impl; [ | exact Hquiet]. intros [o | c r | argv st]; cbn; tauto. }
  split.
  - intros c r _. split; [repeat (constructor; [reflexivity || exact I | ]); exact Hok | ].
    repeat split; in_list.
  - intros argv status Hin Hnz. exfalso.
    cbv [In] in Hin.
    repeat (destruct Hin as [Hin | Hin];
            [first [discriminate Hin | injection Hin as <- <-; apply Hnz; reflexivity] | ]).
    rewrite Forall_forall in Hquiet. exact (Hquiet _ Hin).
Qed.

Lemma conversion_runs_only_when_provisioned_witness :
  exists t w',
    run (Sample.handle "1.26.4") (Faulty.spawn_fails_at 5)
      (bash ColabScript.script false [] 0) 0%N = (t, w', Ok 1) /\
    last t (EOut (Stdout []))
    = EProc ["pip"; "install"; "torch==2.4.0"; "torchaudio==2.4.0";
             "--index-url"; "https://download.pytorch.org/whl/cpu"] 1.
Proof.
  do 2 eexists.
  assert (Hrun : run (Sample.handle "1.26.4") (Faulty.spawn_fails_at 5)
                   (bash ColabScript.script false [] 0) 0%N
                 = (fst (fst (run (Sample.handle "1.26.4") (Faulty.spawn_fails_at 5)
                                (bash ColabScript.script false [] 0) 0%N)),
                    6%N, Ok 1)) by (vm_compute; reflexivity).
  split; [exact Hrun | ].
  apply (proj2 (conversion_runs_only_when_provisioned N (Sample.handle "1.26.4")
                  (Faulty.spawn_fails_at 5) 0%N _ _ 1 Hrun)).
  - vm_compute. repeat first [left; reflexivity | right].
  - discriminate.
Defined.

Ltac in_list_hyp := cbv [In]; repeat first [left; reflexivity | eassumption | right].

Ltac precedes_hyp :=
  repeat first [apply precedes_here; solve [in_list_hyp] | apply precedes_later].

(** One step of the part of colab_script.py that writes runner.sh, the
    invocation of the shell left folded. *)
Ltac prelude_step H handle :=
  cbn -[ColabScript.run_runner] in H;
  lazymatch type of H with
  | context [handle ?c ?w] =>
      let E := fresh "E" in destruct (handle c w) as [? [?|?]] eqn:E; clear E
  | context [match ?e with SystemExit _ => _ | CalledProcessError _ => _
                         | Exception _ _ => _ end] => destruct e
  end;
  cbn -[ColabScript.run_runner] in H.

Lemma run_runner_writes_nothing :
  every_call (fun c => ~ writes_runner c) (python ColabScript.run_runner).
Proof.
  assert (Hconv : every_call (fun c => ~ writes_runner c) ColabScript.run_conversion).
  { unfold ColabScript.run_conversion. every_call_script. }
  unfold ColabScript.run_runner, subprocess_run.
  every_call_script.
  apply every_call_try_except.
  - every_call_script.
    apply every_call_bash; [ | constructor].
    unfold ColabScript.script.
    repeat (apply Forall_cons; [first [exact I | exact Hconv] | ]).
    apply Forall_nil.
  - intros e h He. destruct e; cbn in He; try discriminate He.
    injection He as <-. every_call_script.
Qed.

(** X9. colab_script.py writes runner.sh before it starts the shell.  Once
    the file has been opened it is closed, also when the write raises.  A
    shell command runs only after the script has been written and the file
    closed, both successfully: if opening, writing or closing raises, no
    shell command runs. *)
Theorem runner_written_and_closed_before_shell :
  forall (W : Type) (handle : call -> W -> W * result value)
         (spawn : list string -> W -> W * Z) (w : W),
    let p := python ColabScript.main in
    (forall f,
        In (ELib (open_ "runner.sh" "w") (Ok f)) (trace handle spawn p w) ->
        exists r, In (ELib (file_close f) r) (trace handle spawn p w)) /\
    (forall argv rc,
        In (EProc argv rc) (trace handle spawn p w) ->
        exists f n r,
          precedes (ELib (file_write_script f) (Ok n)) (ELib (file_close f) (Ok r))
                   (trace handle spawn p w) /\
          precedes (ELib (file_close f) (Ok r)) (EProc argv rc)
                   (trace handle spawn p w)) /\
    (forall c e,
        In (ELib c (Raise e)) (trace handle spawn p w) ->
        writes_runner c ->
        Forall not_command (trace handle spawn p w)).
Proof.
  intros W handle spawn w p. unfold trace. subst p.
  destruct (run handle spawn (python ColabScript.main) w) as [[t w'] r] eqn:Hrun.
  cbn [fst snd].
  repeat prelude_step Hrun handle.
  all: try (injection Hrun as <- <- <-;
            split; [ | split];
            [ intros f Hin; in_split Hin; try (injection Hin as <-);
              eexists; in_list
            | intros argv rc Hin; in_split Hin
            | intros c e' Hin Hc; repeat constructor ]).
  pose proof (every_call_run handle spawn _ _ run_runner_writes_nothing) as Hchild.
  match type of Hrun with
  | context [run handle spawn (python ColabScript.run_runner) ?w1] =>
      specialize (Hchild w1); unfold trace in Hchild;
      destruct (run handle spawn (python ColabScript.run_runner) w1)
        as [[t1 w1'] r1]
  end.
  cbn [fst snd] in Hchild. injection Hrun as <- <- <-.
  split; [ | split].
  - intros f Hin. eexists. cbv [In] in Hin |- *.
    destruct Hin as [Hin | [Hin | Hin]]; [discriminate Hin | injection Hin as <- | ].
    + right. right. right. left. reflexivity.
    + destruct Hin as [Hin | [Hin | [Hin | [Hin | Hin]]]]; try discriminate Hin.
      rewrite Forall_forall in Hchild. specialize (Hchild _ Hin).
      exfalso. apply Hchild. exact I.
  - intros argv rc Hin. in_split Hin. do 3 eexists. split; precedes_hyp.
  - intros c e Hin Hc. exfalso. in_split Hin.
    rewrite Forall_forall in Hchild. exact (Hchild _ Hin Hc).
Qed.

Lemma runner_written_and_closed_before_shell_witness :
  let p := python ColabScript.main in
  (exists f n r,
     precedes (ELib (file_write_script f) (Ok n)) (ELib (file_close f) (Ok r))
              (trace (Sample.handle "1.26.4") Sample.spawn p 0%N) /\
     precedes (ELib (file_close f) (Ok r)) (EProc ["python3"; "--version"] 0)
              (trace (Sample.handle "1.26.4") Sample.spawn p 0%N)) /\
  Forall not_command (trace Faulty.write_fails Sample.spawn p 0%N).
Proof.
  split.
  - apply (proj1 (proj2 (runner_written_and_closed_before_shell N
                           (Sample.handle "1.26.4") Sample.spawn 0%N))).
    vm_compute. repeat first [left; reflexivity | right].
  - eapply (proj2 (proj2 (runner_written_and_closed_before_shell N
                            Faulty.write_fails Sample.spawn 0%N))
              (file_write_script _)).
    + vm_compute. repeat first [left; reflexivity | right].
    + exact I.
Defined.

(** X10. The Demucs conversion script with a bag that holds no model:
    [bag_model.models[0]] raises IndexError, the script ends with that
    exception, and no model has been put in evaluation mode, traced,
    converted or saved. *)
Theorem empty_bag_raises_IndexError :
  forall (W : Type) (handle : call -> W -> W * result value)
         (spawn : list string -> W -> W * Z) (w : W)
         (cls : string) (id : N) (attrs : list (string * value)),
    let p := ColabScript.run_conversion in
    In (ELib (get_model "htdemucs") (Ok (VObj cls id attrs))) (trace handle spawn p w) ->
    lookup "models" attrs = Some (VList []) ->
    outcome handle spawn p w = Raise (Exception "IndexError" "index out of range") /\
    Forall (lib_event no_model_use) (trace handle spawn p w).
Proof.
  intros W handle spawn w cls id attrs p. unfold trace, outcome. subst p.
  destruct (run handle spawn ColabScript.run_conversion w) as [[t w'] r] eqn:Hrun.
  cbn [fst snd]. intros Hin Hempty.
  run_script Hrun handle spawn.
  all: injection Hrun as <- <- <-.
  all: clear_answers.
  all: in_split Hin.
  all: injection Hin as ->.
  all: match goal with
       | H : ColabScript.select_model _ = _ |- _ =>
           unfold ColabScript.select_model, hasattr, getattr in H;
           rewrite Hempty in H; cbn in H;
           first [discriminate H | injection H as <-]
       end.
  split; [reflexivity | repeat constructor].
Qed.

Lemma empty_bag_raises_IndexError_witness :
  let p := ColabScript.run_conversion in
  outcome Faulty.empty_bag Sample.spawn p 0%N
  = Raise (Exception "IndexError" "index out of range") /\
  Forall (lib_event no_model_use) (trace Faulty.empty_bag Sample.spawn p 0%N).
Proof.
  apply (empty_bag_raises_IndexError N Faulty.empty_bag Sample.spawn 0%N
           "BagOfModels" 7%N [("models", VList [])]).
  - vm_compute. repeat first [left; reflexivity | right].
  - reflexivity.
Defined.

(** X11. A separator whose target models have no "vocals" entry:
    scripts/convert_openunmix_spectral.py ends with KeyError 'vocals'
    before any model is put in evaluation mode, traced, converted or
    saved; scripts/inspect_umx.py, for a separator without a [models]
    attribute, ends with the same exception before any forward pass. *)
Theorem missing_vocals_raises_KeyError :
  forall (W : Type) (handle : call -> W -> W * result value)
         (spawn : list string -> W -> W * Z) (w : W)
         (kwargs : list (string * value)) (cls : string) (id : N)
         (attrs entries : list (string * value)),
    lookup "target_models" attrs = Some (VDict entries) ->
    lookup "vocals" entries = None ->
    (In (ELib (load_separator kwargs) (Ok (VObj cls id attrs)))
        (trace handle spawn ConvertOpenunmixSpectral.main w) ->
     outcome handle spawn ConvertOpenunmixSpectral.main w
     = Raise (Exception "KeyError" "vocals") /\
     Forall (lib_event no_model_use)
       (trace handle spawn ConvertOpenunmixSpectral.main w)) /\
    (In (ELib (load_separator kwargs) (Ok (VObj cls id attrs)))
        (trace handle spawn InspectUmx.main w) ->
     lookup "models" attrs = None ->
     outcome handle spawn InspectUmx.main w = Raise (Exception "KeyError" "vocals") /\
     Forall (lib_event no_model_use) (trace handle spawn InspectUmx.main w)).
Proof.
  intros W handle spawn w kwargs cls id attrs entries Htargets Hvocals.
  unfold trace, outcome. split.
  - destruct (run handle spawn ConvertOpenunmixSpectral.main w) as [[t w'] r] eqn:Hrun.
    cbn [fst snd]. intros Hin.
    run_script Hrun handle spawn.
    all: injection Hrun as <- <- <-.
    all: clear_answers.
    all: in_split Hin.
    all: injection Hin as Hkw Hsep; subst.
    all: repeat match goal with
         | H : getattr (VObj _ _ _) "target_models" = _ |- _ =>
             cbn in H; rewrite Htargets in H;
             first [discriminate H | injection H as <-]
         | H : getitem (VDict _) (VStr "vocals") = _ |- _ =>
             cbn in H; rewrite Hvocals in H;
             first [discriminate H | injection H as <-]
         end.
    split; [reflexivity | repeat constructor].
  - destruct (run handle spawn InspectUmx.main w) as [[t w'] r] eqn:Hrun.
    cbn [fst snd]. intros Hin Hmodels.
    unfold InspectUmx.main, InspectUmx.setup, InspectUmx.attempt_1,
      InspectUmx.attempt_2, except_Exception in Hrun.
    run_script Hrun handle spawn.
    all: injection Hrun as <- <- <-.
    all: clear_answers.
    all: in_split Hin.
    all: injection Hin as Hkw Hsep; subst.
    all: repeat match goal with
         | H : hasattr (VObj _ _ _) "models" = true |- _ =>
             unfold hasattr in H; cbn in H; rewrite Hmodels in H; discriminate H
         | H : getattr (VObj _ _ _) "target_models" = _ |- _ =>
             cbn in H; rewrite Htargets in H;
             first [discriminate H | injection H as <-]
         | H : getitem (VDict _) (VStr "vocals") = _ |- _ =>
             cbn in H; rewrite Hvocals in H;
             first [discriminate H | injection H as <-]
         end.
    all: split; [reflexivity | repeat constructor].
Qed.

Lemma missing_vocals_raises_KeyError_witness :
  outcome Faulty.no_vocals Sample.spawn ConvertOpenunmixSpectral.main 0%N
  = Raise (Exception "KeyError" "vocals") /\
  outcome Faulty.no_vocals Sample.spawn InspectUmx.main 0%N
  = Raise (Exception "KeyError" "vocals").
Proof.
  destruct (missing_vocals_raises_KeyError N Faulty.no_vocals Sample.spawn 0%N
              [("model_str_or_path", VStr "umxhq"); ("niter", VInt 1);
               ("residual", VBool true); ("device", VStr "cpu")]
              "Separator" 2%N
              [("target_models", VDict [("drums", VObj "OpenUnmix" 3 [])])]
              [("drums", VObj "OpenUnmix" 3 [])] eq_refl eq_refl) as [Hspec Hprobe].
  split.
  - apply Hspec. vm_compute. repeat first [left; reflexivity | right].
  - apply Hprobe; [ | reflexivity]. vm_compute. repeat first [left; reflexivity | right].
Defined.



(** X13. scripts/inspect_umx.py only looks: whatever the libraries answer,
    it imports, loads the separator, creates tensors and calls the
    sub-model, at most twice, and makes no other call; in particular it
    traces, converts, saves and installs nothing and starts no process. *)
Theorem probe_is_read_only :
  forall (W : Type) (handle : call -> W -> W * result value)
         (spawn : list string -> W -> W * Z) (w : W),
    let t := trace handle spawn (python InspectUmx.main) w in
    Forall (lib_event probe_call) t /\
    Forall not_command t /\
    (List.length (filter is_forward_pass t) <= 2)%nat.
Proof.
  intros W handle spawn w t. subst t.
  assert (Hcalls : every_call probe_call (python InspectUmx.main)).
  { unfold InspectUmx.main, InspectUmx.setup, InspectUmx.attempt_1,
      InspectUmx.attempt_2.
    every_call_script;
      apply every_call_try_except;
      [ every_call_script
      | unfold except_Exception; intros e h He; destruct (is_Exception e);
        [injection He as <-; every_call_script | discriminate He]
      | every_call_script
      | unfold except_Exception; intros e h He; destruct (is_Exception e);
        [injection He as <-; every_call_script | discriminate He] ]. }
  split; [apply every_call_run; exact Hcalls | ].
  unfold trace.
  destruct (run handle spawn (python InspectUmx.main) w) as [[t w'] r] eqn:Hrun.
  cbn [fst snd].
  unfold InspectUmx.main, InspectUmx.setup, InspectUmx.attempt_1,
    InspectUmx.attempt_2, except_Exception in Hrun.
  run_script Hrun handle spawn.
  all: injection Hrun as <- <- <-.
  all: clear_answers.
  all: split; [repeat constructor | cbn; lia].
Qed.

Lemma closing_line_iff_completed_witness :
  In (EOut (Stdout [Lit "✅ Done! Output at Demucs.zip"]))
     (trace (Sample.handle "1.26.4") Sample.spawn (export_script Demucs) 0%N) /\
  outcome (Sample.handle "2.0.1") Sample.spawn (export_script Demucs) 0%N <> Ok tt.
Proof.
  split.
  - apply (proj2 (closing_line_iff_completed N (Sample.handle "1.26.4") Sample.spawn
                    Demucs 0%N)).
    vm_compute. reflexivity.
  - vm_compute. discriminate.
Defined.
